(** * The [node] task of hardhat-core: launching the JSON-RPC server

    Shallow embedding of
    [packages/hardhat-core/src/builtin-tasks/node.ts]: the task [TASK_NODE]
    and its subtasks [TASK_NODE_GET_PROVIDER], [TASK_NODE_CREATE_SERVER],
    [TASK_NODE_SERVER_CREATED] and [TASK_NODE_SERVER_READY], together with
    [logHardhatNetworkAccounts].

    The asynchronous code is sequential (every promise is awaited), so an
    action is modelled in a writer/error monad: it produces the list of the
    calls it made on its collaborators, in order, and either a value or the
    thrown error.  The collaborators themselves (provider, server, watcher,
    file system, ethereumjs-util, bn.js, the constructor of [HardhatError])
    are not part of the file; their answers are read from a [World]. *)

From Stdlib Require Import ZArith List String Ascii Bool Lia.
From Stdlib Require Import DecimalString DecimalZ.
Import ListNotations.
Local Open Scope string_scope.
Local Open Scope Z_scope.

(** ** Errors *)

(** The entries of [ERRORS.BUILTIN_TASKS] this file throws; any other
    descriptor of the errors list is an [OTHER_DESCRIPTOR]. *)
Inductive ErrorDescriptor : Type :=
| JSONRPC_SERVER_ERROR
| JSONRPC_UNSUPPORTED_NETWORK
| NODE_FORK_BLOCK_NUMBER_WITHOUT_URL
| OTHER_DESCRIPTOR (number : Z).

(** What a [throw] carries.  Any JavaScript value can be thrown: a
    [HardhatError], with its descriptor, the message arguments it was built
    from ([None] is [undefined]) and an optional parent error; a value whose
    [message] is a string, as every [Error] object is; [undefined] or
    [null], of which no property can be read; any other value, whose
    [message] reads as [undefined]. *)
#[warnings="-register-all"]
Inductive Thrown : Type :=
| HardhatError (descriptor : ErrorDescriptor)
               (messageArguments : list (string * option string))
               (parentError : option Thrown)
| Error (message : string)
| Value
| Nullish (isNull : bool).

(** [HardhatError.isHardhatError] *)
Definition isHardhatError (other : Thrown) : bool :=
  match other with
  | HardhatError _ _ _ => true
  | Error _ | Value | Nullish _ => false
  end.

Definition descriptor_eqb (a b : ErrorDescriptor) : bool :=
  match a, b with
  | JSONRPC_SERVER_ERROR, JSONRPC_SERVER_ERROR => true
  | JSONRPC_UNSUPPORTED_NETWORK, JSONRPC_UNSUPPORTED_NETWORK => true
  | NODE_FORK_BLOCK_NUMBER_WITHOUT_URL, NODE_FORK_BLOCK_NUMBER_WITHOUT_URL => true
  | OTHER_DESCRIPTOR n, OTHER_DESCRIPTOR m => Z.eqb n m
  | _, _ => false
  end.

(** [has_descriptor d e]: [e] is a [HardhatError] of descriptor [d]. *)
Definition has_descriptor (d : ErrorDescriptor) (e : Thrown) : bool :=
  match e with
  | HardhatError d' _ _ => descriptor_eqb d d'
  | Error _ | Value | Nullish _ => false
  end.

(** ** Configuration and runtime environment *)

(** Modelled from the spec: the constant [HARDHAT_NETWORK_NAME] of
    [internal/constants], the name of the designated local network. *)
Definition HARDHAT_NETWORK_NAME : string := "hardhat".

Record HardhatNetworkForkingConfig : Type := {
  url : option string;
  blockNumber : option Z
}.

Record HardhatNetworkAccountConfig : Type := {
  privateKey : string;
  balance : string
}.

Record HardhatNetworkConfig : Type := {
  forking : option HardhatNetworkForkingConfig;
  accounts : option (list HardhatNetworkAccountConfig)
}.

(** [config.networks]: only the entry of the local network is read. *)
Record NetworksConfig : Type := {
  hardhat : HardhatNetworkConfig
}.

Record ProjectPathsConfig : Type := {
  root : string
}.

Record HardhatConfig : Type := {
  networks : NetworksConfig;
  paths : ProjectPathsConfig
}.

(** Providers, servers and the artifacts object are opaque handles. *)
Record EthereumProvider : Type := { providerId : nat }.
Record JsonRpcServer : Type := { serverId : nat }.
Record Artifacts : Type := { artifactsId : nat }.

Record Network : Type := {
  name : string;
  provider : EthereumProvider
}.

Record HardhatArguments : Type := {
  network_argument : option string
}.

Record HardhatRuntimeEnvironment : Type := {
  artifacts : Artifacts;
  config : HardhatConfig;
  hardhatArguments : HardhatArguments;
  network : Network
}.

(** The arguments of [provider.request]. *)
Inductive RequestArguments : Type :=
| hardhat_reset (jsonRpcUrl : string) (forkBlock : option Z)
| hardhat_setLoggingEnabled (enabled : bool).

Record JsonRpcServerConfig : Type := {
  cfg_hostname : string;
  cfg_port : Z;
  cfg_provider : EthereumProvider
}.

Definition Buffer : Type := list Z.

(** ** The collaborators *)

(** The answers of everything the file calls but does not define.  A call
    that may throw answers with [inl error]; one that returns nothing
    answers [Some error] when it throws.

    [toBuffer] and [privateToAddress] of ethereumjs-util throw on a key they
    do not accept.  [bnReads] is what [new BN(s)] makes of a string [s] that
    is not a decimal numeral, [exponentNotation] what a template literal
    prints for a number of magnitude 10^21 or more.
    [hardhatErrorRefuses d arguments] is the error the constructor of
    [HardhatError] throws instead of building the error, when it does not
    accept the message arguments.  [nullishMessageError isNull] is the
    message of the [TypeError] that reading a property of [undefined] (or
    of [null]) throws. *)
Record World : Type := {
  existsSync : string -> bool;
  createProvider :
    string -> HardhatNetworkConfig -> ProjectPathsConfig -> Artifacts ->
    Thrown + EthereumProvider;
  request : EthereumProvider -> RequestArguments -> option Thrown;
  newJsonRpcServerImpl : JsonRpcServerConfig -> Thrown + JsonRpcServer;
  listen : JsonRpcServer -> Thrown + (Z * string);
  waitUntilClosed : JsonRpcServer -> option Thrown;
  watchCompilerOutput : EthereumProvider -> ProjectPathsConfig -> option Thrown;
  toBuffer : string -> Thrown + Buffer;
  privateToAddress : Buffer -> Thrown + Buffer;
  bufferToHex : Buffer -> string;
  bnReads : string -> Z;
  exponentNotation : Z -> string;
  hardhatErrorRefuses :
    ErrorDescriptor -> list (string * option string) -> option Thrown;
  nullishMessageError : bool -> string
}.

(** ** Observable calls *)

Inductive Styled : Type :=
| plain (text : string)
| chalk_green (text : string)
| chalk_yellow (text : string).

Inductive TaskCall : Type :=
| RUN_GET_PROVIDER (forkBlockNumber : option Z) (forkUrl : option string)
| RUN_CREATE_SERVER (hostname : string) (port : Z) (p : EthereumProvider)
| RUN_SERVER_CREATED (hostname : string) (port : Z) (p : EthereumProvider)
                     (server : JsonRpcServer)
| RUN_SERVER_READY (address : string) (port : Z) (p : EthereumProvider)
                   (server : JsonRpcServer).

Inductive Event : Type :=
| EvRun (call : TaskCall)
| EvDebug (text : string) (argument : option Thrown)
| EvCreateProvider (networkName : string) (networkConfig : HardhatNetworkConfig)
                   (projectPaths : ProjectPathsConfig) (arts : Artifacts)
| EvRequest (p : EthereumProvider) (args : RequestArguments)
| EvExistsSync (path : string)
| EvNewServer (serverConfig : JsonRpcServerConfig)
| EvListen (server : JsonRpcServer)
| EvWatch (p : EthereumProvider) (projectPaths : ProjectPathsConfig)
| EvConsoleLog (line : Styled)
| EvConsoleWarn (line : Styled)
| EvReportError (error : Thrown)
| EvWaitUntilClosed (server : JsonRpcServer)
| EvToBuffer (key : string)
| EvPrivateToAddress (keyBuffer : Buffer).

(** ** The monad of actions *)

Module Action.

Definition M (A : Type) : Type := (list Event * (Thrown + A))%type.

Definition ret {A} (a : A) : M A := ([], inr a).

Definition throw {A} (e : Thrown) : M A := ([], inl e).

Definition bind {A B} (m : M A) (f : A -> M B) : M B :=
  match m with
  | (t, inl e) => (t, inl e)
  | (t, inr a) => let (t', r) := f a in ((t ++ t')%list, r)
  end.

(** [try { m } catch (error) { h error }] *)
Definition try_catch {A} (m : M A) (h : Thrown -> M A) : M A :=
  match m with
  | (t, inl e) => let (t', r) := h e in ((t ++ t')%list, r)
  | (t, inr a) => (t, inr a)
  end.

(** A call on a collaborator: it is recorded, then answers. *)
Definition call {A} (ev : Event) (answer : Thrown + A) : M A := ([ev], answer).

Definition call_ (ev : Event) (answer : option Thrown) : M unit :=
  ([ev], match answer with Some e => inl e | None => inr tt end).

Definition emit (ev : Event) : M unit := ([ev], inr tt).

Definition trace {A} (m : M A) : list Event := fst m.
Definition outcome {A} (m : M A) : Thrown + A := snd m.

End Action.
Import Action.

Notation "x <- m ;; k" := (bind m (fun x => k))
  (at level 61, m at next level, right associativity).
Notation "m ;;; k" := (bind m (fun _ => k))
  (at level 61, right associativity).

(** [a ?? b] *)
Definition nullish {A} (a b : option A) : option A :=
  match a with
  | Some x => Some x
  | None => b
  end.

(** [o?.f] for an optional field [f] *)
Definition optional_chain {A B} (o : option A) (f : A -> option B) : option B :=
  match o with
  | Some x => f x
  | None => None
  end.

(** ** [TASK_NODE_GET_PROVIDER] *)

(** [forkUrlParam ?? hardhatNetworkConfig.forking?.url] *)
Definition effectiveForkUrl (forkUrlParam : option string)
    (hardhatNetworkConfig : HardhatNetworkConfig) : option string :=
  nullish forkUrlParam (optional_chain (forking hardhatNetworkConfig) url).

(** [forkBlockNumberParam ?? hardhatNetworkConfig.forking?.blockNumber] *)
Definition effectiveForkBlockNumber (forkBlockNumberParam : option Z)
    (hardhatNetworkConfig : HardhatNetworkConfig) : option Z :=
  nullish forkBlockNumberParam
    (optional_chain (forking hardhatNetworkConfig) blockNumber).

Definition TASK_NODE_GET_PROVIDER (w : World)
    (forkBlockNumberParam : option Z) (forkUrlParam : option string)
    (hre : HardhatRuntimeEnvironment) : M EthereumProvider :=
  p <- (if negb (String.eqb (name (network hre)) HARDHAT_NETWORK_NAME) then
          let networkConfig := hardhat (networks (config hre)) in
          emit (EvDebug "Creating hardhat provider for JSON-RPC server" None) ;;;
          call (EvCreateProvider HARDHAT_NETWORK_NAME networkConfig
                  (paths (config hre)) (artifacts hre))
               (createProvider w HARDHAT_NETWORK_NAME networkConfig
                  (paths (config hre)) (artifacts hre))
        else ret (provider (network hre))) ;;
  let hardhatNetworkConfig := hardhat (networks (config hre)) in
  let forkUrl := effectiveForkUrl forkUrlParam hardhatNetworkConfig in
  let forkBlockNumber :=
    effectiveForkBlockNumber forkBlockNumberParam hardhatNetworkConfig in
  (match forkUrl with
   | Some u =>
       call_ (EvRequest p (hardhat_reset u forkBlockNumber))
             (request w p (hardhat_reset u forkBlockNumber))
   | None =>
       match forkBlockNumber with
       | Some _ => throw (HardhatError NODE_FORK_BLOCK_NUMBER_WITHOUT_URL [] None)
       | None => ret tt
       end
   end) ;;;
  call_ (EvRequest p (hardhat_setLoggingEnabled true))
        (request w p (hardhat_setLoggingEnabled true)) ;;;
  ret p.

(** ** Numbers and their decimal notation *)

(** The decimal numeral of an integer [n]. *)
Definition number_toString (n : Z) : string :=
  NilZero.string_of_int (Z.to_int n).

(** [`${n}`] for a number [n] that is an integer: its decimal numeral below
    10^21, exponent notation from there on. *)
Definition template_number (w : World) (n : Z) : string :=
  if Z.abs n <? 10 ^ 21 then number_toString n else exponentNotation w n.

(** The operations of bn.js the file uses, on [Z].  [new BN(s)] reads a
    decimal numeral, with or without a minus sign, as the integer it
    denotes, and any other string as bn.js does; [div] is the truncating
    division of bn.js; [toString(10)] prints the decimal numeral. *)
Module BN.

Definition t : Type := Z.

Definition of_string (w : World) (s : string) : t :=
  match NilZero.int_of_string s with
  | Some d => Z.of_int d
  | None => bnReads w s
  end.

Definition of_number (n : Z) : t := n.

Definition pow (a b : t) : t := Z.pow a b.

Definition div (a b : t) : t := Z.quot a b.

Definition toString (a : t) : string := number_toString a.

End BN.

Definition newline : string := String (ascii_of_nat 10) EmptyString.

(** ** [logHardhatNetworkAccounts] *)

(** [new BN(account.balance).div(new BN(10).pow(new BN(18))).toString(10)] *)
Definition displayed_balance (w : World)
    (account : HardhatNetworkAccountConfig) : string :=
  BN.toString
    (BN.div (BN.of_string w (balance account))
            (BN.pow (BN.of_number 10) (BN.of_number 18))).

(** The template literal of the loop body. *)
Definition account_text (index : nat) (address balance privateKey : string)
    : string :=
  "Account #" ++ number_toString (Z.of_nat index) ++ ": " ++ address
    ++ " (" ++ balance ++ " ETH)" ++ newline
    ++ "Private Key: " ++ privateKey ++ newline.

(** The three constants of the loop body and the text they make: the
    argument of its [console.log]. *)
Definition account_block (w : World) (index : nat)
    (account : HardhatNetworkAccountConfig) : M string :=
  keyBuffer <- call (EvToBuffer (privateKey account))
                    (toBuffer w (privateKey account)) ;;
  addressBuffer <- call (EvPrivateToAddress keyBuffer)
                        (privateToAddress w keyBuffer) ;;
  let address := bufferToHex w addressBuffer in
  keyBuffer' <- call (EvToBuffer (privateKey account))
                     (toBuffer w (privateKey account)) ;;
  let privateKey := bufferToHex w keyBuffer' in
  let balance := displayed_balance w account in
  ret (account_text index address balance privateKey).

(** The [for ... of networkConfig.accounts.entries()] loop, from [index]. *)
Fixpoint logAccountsFrom (w : World) (index : nat)
    (entries : list HardhatNetworkAccountConfig) : M unit :=
  match entries with
  | [] => ret tt
  | account :: rest =>
      text <- account_block w index account ;;
      emit (EvConsoleLog (plain text)) ;;;
      logAccountsFrom w (S index) rest
  end.

Definition logHardhatNetworkAccounts (w : World)
    (networkConfig : HardhatNetworkConfig) : M unit :=
  match accounts networkConfig with
  | None => ret tt
  | Some entries =>
      emit (EvConsoleLog (plain "Accounts")) ;;;
      emit (EvConsoleLog (plain "========")) ;;;
      logAccountsFrom w 0 entries
  end.

(** ** [TASK_NODE_CREATE_SERVER], [TASK_NODE_SERVER_CREATED],
       [TASK_NODE_SERVER_READY] *)

Definition TASK_NODE_CREATE_SERVER (w : World)
    (hostname : string) (port : Z) (p : EthereumProvider) : M JsonRpcServer :=
  let serverConfig :=
    {| cfg_hostname := hostname; cfg_port := port; cfg_provider := p |} in
  server <- call (EvNewServer serverConfig) (newJsonRpcServerImpl w serverConfig) ;;
  ret server.

(** "this task is meant to be overriden by plugin writers" *)
Definition TASK_NODE_SERVER_CREATED
    (hostname : string) (port : Z) (p : EthereumProvider)
    (server : JsonRpcServer) : M unit :=
  ret tt.

Definition started_banner (w : World) (address : string) (port : Z) : string :=
  "Started HTTP and WebSocket JSON-RPC server at http://" ++ address ++ ":"
    ++ template_number w port ++ "/".

Definition TASK_NODE_SERVER_READY (w : World)
    (address : string) (port : Z) (p : EthereumProvider)
    (server : JsonRpcServer) (hre : HardhatRuntimeEnvironment) : M unit :=
  emit (EvConsoleLog (chalk_green (started_banner w address port))) ;;;
  emit (EvConsoleLog (plain "")) ;;;
  let networkConfig := hardhat (networks (config hre)) in
  logHardhatNetworkAccounts w networkConfig.

(** ** [TASK_NODE] *)

Record NodeTaskArguments : Type := {
  forkBlockNumber : option Z;
  forkUrl : option string;
  hostnameParam : option string;
  port : Z
}.

(** [run(name, arguments)]: the call is recorded and the action this file
    registers under [name] runs. *)
Definition run {A} (c : TaskCall) (action : M A) : M A :=
  emit (EvRun c) ;;; action.

Definition watch_warning : string :=
  "There was a problem watching the compiler output, changes in the contracts won't be reflected in the Hardhat Network. Run Hardhat with --verbose to learn more.".

Definition watch_debug : string :=
  "Compilation output can't be watched. Please report this to help us improve Hardhat." ++ newline.

(** The hostname the server is bound to. *)
Definition resolve_hostname (w : World) (hostnameParam : option string) : M string :=
  match hostnameParam with
  | Some h => ret h
  | None =>
      insideDocker <- call (EvExistsSync "/.dockerenv")
                           (inr (existsSync w "/.dockerenv")) ;;
      if insideDocker : bool then ret "0.0.0.0" else ret "localhost"
  end.

(** The inner [try]/[catch] around [watchCompilerOutput]. *)
Definition watch_guarded (w : World) (p : EthereumProvider)
    (projectPaths : ProjectPathsConfig) : M unit :=
  try_catch
    (call_ (EvWatch p projectPaths) (watchCompilerOutput w p projectPaths))
    (fun error =>
       emit (EvConsoleWarn (chalk_yellow watch_warning)) ;;;
       emit (EvDebug watch_debug (Some error)) ;;;
       emit (EvReportError error)).

(** The body of the outer [try]. *)
Definition launch (w : World) (args : NodeTaskArguments)
    (hre : HardhatRuntimeEnvironment) : M unit :=
  p <- run (RUN_GET_PROVIDER (forkBlockNumber args) (forkUrl args))
         (TASK_NODE_GET_PROVIDER w (forkBlockNumber args) (forkUrl args) hre) ;;
  hostname <- resolve_hostname w (hostnameParam args) ;;
  server <- run (RUN_CREATE_SERVER hostname (port args) p)
              (TASK_NODE_CREATE_SERVER w hostname (port args) p) ;;
  run (RUN_SERVER_CREATED hostname (port args) p server)
      (TASK_NODE_SERVER_CREATED hostname (port args) p server) ;;;
  bound <- call (EvListen server) (listen w server) ;;
  let '(actualPort, address) := bound in
  watch_guarded w p (paths (config hre)) ;;;
  run (RUN_SERVER_READY address actualPort p server)
      (TASK_NODE_SERVER_READY w address actualPort p server hre) ;;;
  call_ (EvWaitUntilClosed server) (waitUntilClosed w server).

(** [error.message], for an [error] that is not a [HardhatError] (the
    file reads the message of no other). *)
Definition read_message (w : World) (error : Thrown) : M (option string) :=
  match error with
  | Error message => ret (Some message)
  | Nullish isNull => throw (Error (nullishMessageError w isNull))
  | Value | HardhatError _ _ _ => ret None
  end.

(** [new HardhatError(descriptor, messageArguments, parentError)] with
    message arguments: the constructor may refuse them. *)
Definition new_HardhatError (w : World) (descriptor : ErrorDescriptor)
    (messageArguments : list (string * option string))
    (parentError : option Thrown) : M Thrown :=
  match hardhatErrorRefuses w descriptor messageArguments with
  | Some refusal => throw refusal
  | None => ret (HardhatError descriptor messageArguments parentError)
  end.

(** The outer [catch]: a [HardhatError] is thrown again as it is; for
    anything else a [JSONRPC_SERVER_ERROR] is built, whose [error] argument
    is the message of the caught error and whose parent is that error, and
    thrown. *)
Definition rethrow {A} (w : World) (error : Thrown) : M A :=
  if isHardhatError error then throw error
  else
    message <- read_message w error ;;
    wrapper <- new_HardhatError w JSONRPC_SERVER_ERROR [("error", message)]
                 (Some error) ;;
    throw wrapper.

Definition unsupported_network (hre : HardhatRuntimeEnvironment) : bool :=
  negb (String.eqb (name (network hre)) HARDHAT_NETWORK_NAME)
  && match network_argument (hardhatArguments hre) with
     | Some _ => true
     | None => false
     end.

Definition TASK_NODE (w : World) (args : NodeTaskArguments)
    (hre : HardhatRuntimeEnvironment) : M unit :=
  (if unsupported_network hre
   then throw (HardhatError JSONRPC_UNSUPPORTED_NETWORK [] None)
   else ret tt) ;;;
  try_catch (launch w args hre) (rethrow w).

(** ** Reading traces *)

(** The error with which the collaborator called by [ev] answers in [w],
    if it throws. *)
Definition throws (w : World) (ev : Event) : option Thrown :=
  match ev with
  | EvCreateProvider n c pp a =>
      match createProvider w n c pp a with inl e => Some e | inr _ => None end
  | EvRequest p r => request w p r
  | EvNewServer c =>
      match newJsonRpcServerImpl w c with inl e => Some e | inr _ => None end
  | EvListen s =>
      match listen w s with inl e => Some e | inr _ => None end
  | EvWatch p pp => watchCompilerOutput w p pp
  | EvWaitUntilClosed s => waitUntilClosed w s
  | EvToBuffer k =>
      match toBuffer w k with inl e => Some e | inr _ => None end
  | EvPrivateToAddress b =>
      match privateToAddress w b with inl e => Some e | inr _ => None end
  | _ => None
  end.

Definition is_watch (ev : Event) : bool :=
  match ev with EvWatch _ _ => true | _ => false end.

Definition creates_provider (ev : Event) : bool :=
  match ev with EvCreateProvider _ _ _ _ => true | _ => false end.

(** The provider requests of a trace, in order. *)
Fixpoint requests_of (t : list Event) : list (EthereumProvider * RequestArguments) :=
  match t with
  | [] => []
  | EvRequest p r :: t' => (p, r) :: requests_of t'
  | _ :: t' => requests_of t'
  end.

(** No collaborator of [w] throws a [HardhatError] of descriptor [d]:
    neither the calls of a trace nor the constructor of [HardhatError]. *)
Definition never_thrown (d : ErrorDescriptor) (w : World) : Prop :=
  (forall ev e, throws w ev = Some e -> has_descriptor d e = false)
  /\ (forall d' arguments e, hardhatErrorRefuses w d' arguments = Some e ->
                             has_descriptor d e = false).

(** What the outer [catch] throws for a caught [error]. *)
Definition rethrown (w : World) (error : Thrown) : Thrown :=
  match outcome (@rethrow unit w error) with
  | inl e => e
  | inr _ => error
  end.

(** ** Sample worlds and requests *)

Definition network_provider : EthereumProvider := {| providerId := 0 |}.
Definition fresh_provider : EthereumProvider := {| providerId := 1 |}.
Definition the_server : JsonRpcServer := {| serverId := 0 |}.

(** Every collaborator succeeds; the server binds port 49152 on 127.0.0.1. *)
Definition calm_world : World := {|
  existsSync := fun _ => false;
  createProvider := fun _ _ _ _ => inr fresh_provider;
  request := fun _ _ => None;
  newJsonRpcServerImpl := fun _ => inr the_server;
  listen := fun _ => inr (49152, "127.0.0.1");
  waitUntilClosed := fun _ => None;
  watchCompilerOutput := fun _ _ => None;
  toBuffer := fun _ => inr [];
  privateToAddress := fun b => inr b;
  bufferToHex := fun _ => "0x";
  bnReads := fun _ => 0;
  exponentNotation := fun _ => "1e+21";
  hardhatErrorRefuses := fun _ _ => None;
  nullishMessageError := fun _ => "Cannot read properties of undefined"
|}.

(** As [calm_world], but the watcher throws. *)
Definition watchless_world : World := {|
  existsSync := existsSync calm_world;
  createProvider := createProvider calm_world;
  request := request calm_world;
  newJsonRpcServerImpl := newJsonRpcServerImpl calm_world;
  listen := listen calm_world;
  waitUntilClosed := waitUntilClosed calm_world;
  watchCompilerOutput := fun _ _ => Some (Error "EMFILE");
  toBuffer := toBuffer calm_world;
  privateToAddress := privateToAddress calm_world;
  bufferToHex := bufferToHex calm_world;
  bnReads := bnReads calm_world;
  exponentNotation := exponentNotation calm_world;
  hardhatErrorRefuses := hardhatErrorRefuses calm_world;
  nullishMessageError := nullishMessageError calm_world
|}.

(** As [calm_world], but the fork reset is refused. *)
Definition unreachable_world : World := {|
  existsSync := existsSync calm_world;
  createProvider := createProvider calm_world;
  request := fun _ r =>
    match r with
    | hardhat_reset _ _ => Some (Error "ECONNREFUSED")
    | _ => None
    end;
  newJsonRpcServerImpl := newJsonRpcServerImpl calm_world;
  listen := listen calm_world;
  waitUntilClosed := waitUntilClosed calm_world;
  watchCompilerOutput := watchCompilerOutput calm_world;
  toBuffer := toBuffer calm_world;
  privateToAddress := privateToAddress calm_world;
  bufferToHex := bufferToHex calm_world;
  bnReads := bnReads calm_world;
  exponentNotation := exponentNotation calm_world;
  hardhatErrorRefuses := hardhatErrorRefuses calm_world;
  nullishMessageError := nullishMessageError calm_world
|}.



Definition refusal : Thrown :=
  HardhatError (OTHER_DESCRIPTOR 901) [("variable", Some "error")] None.


Definition plain_config : HardhatConfig := {|
  networks := {| hardhat := {| forking := None; accounts := None |} |};
  paths := {| root := "/project" |}
|}.

(** A runtime environment on network [n], selected with [--network] or not. *)
Definition env_on (n : string) (selected : option string) : HardhatRuntimeEnvironment := {|
  artifacts := {| artifactsId := 0 |};
  config := plain_config;
  hardhatArguments := {| network_argument := selected |};
  network := {| name := n; provider := network_provider |}
|}.

Definition default_args : NodeTaskArguments := {|
  forkBlockNumber := None;
  forkUrl := None;
  hostnameParam := None;
  port := 8545
|}.

Definition block_only_args : NodeTaskArguments := {|
  forkBlockNumber := Some 100;
  forkUrl := None;
  hostnameParam := None;
  port := 8545
|}.

Definition rich_account : HardhatNetworkAccountConfig := {|
  privateKey := "0xac0974bec39a17e36ba4a6b4d238ff944bacb478cbed5efcae784d7bf4f2ff80";
  balance := "10000000000000000000000"
|}.

Definition poor_account : HardhatNetworkAccountConfig := {|
  privateKey := "0x59c6995e998f97a5a0044966f0945389dc9e86dae88c7a8412f4603b6b78690d";
  balance := "999999999999999999"
|}.



Definition indebted_account : HardhatNetworkAccountConfig := {|
  privateKey := "0xac0974bec39a17e36ba4a6b4d238ff944bacb478cbed5efcae784d7bf4f2ff80";
  balance := "-1500000000000000000"
|}.


(** ** Reading the account listing *)


(** The events of the server-ready action. *)
Definition ready_event (ev : Event) : bool :=
  match ev with
  | EvConsoleLog _ | EvToBuffer _ | EvPrivateToAddress _ => true
  | _ => false
  end.


(** ** The shape of a launch *)

(** What [resolve_hostname] does and returns. *)
Definition hostname_events (hostnameParam : option string) : list Event :=
  match hostnameParam with
  | Some _ => []
  | None => [EvExistsSync "/.dockerenv"]
  end.

Definition resolved_hostname (w : World) (hostnameParam : option string) : string :=
  match hostnameParam with
  | Some h => h
  | None => if existsSync w "/.dockerenv" then "0.0.0.0" else "localhost"
  end.

(** What [watch_guarded] does. *)
Definition watch_events (w : World) (p : EthereumProvider)
    (projectPaths : ProjectPathsConfig) : list Event :=
  EvWatch p projectPaths
  :: match watchCompilerOutput w p projectPaths with
     | Some error =>
         [EvConsoleWarn (chalk_yellow watch_warning);
          EvDebug watch_debug (Some error);
          EvReportError error]
     | None => []
     end.

(** The events of provider resolution. *)
Definition resolution_event (ev : Event) : bool :=
  match ev with
  | EvDebug _ _ | EvCreateProvider _ _ _ _ | EvRequest _ _ => true
  | _ => false
  end.

Definition is_listen (ev : Event) : bool :=
  match ev with EvListen _ => true | _ => false end.

Definition is_created_hook (ev : Event) : bool :=
  match ev with EvRun (RUN_SERVER_CREATED _ _ _ _) => true | _ => false end.

Definition is_ready_hook (ev : Event) : bool :=
  match ev with EvRun (RUN_SERVER_READY _ _ _ _) => true | _ => false end.

(** The launch is in its steady state on [server]. *)
Definition reaches_serving {A} (m : M A) (server : JsonRpcServer) : Prop :=
  In (EvWaitUntilClosed server) (trace m).

(** ** Where errors come from *)

(** An error thrown by a call of the trace, the watcher's apart, is the
    outcome of the action. *)
Definition escapes (w : World) {A} (m : M A) : Prop :=
  forall ev e, In ev (trace m) -> is_watch ev = false ->
               throws w ev = Some e -> outcome m = inl e.

(** An error an action ends with was thrown by a call of its trace, unless
    it is the error of this file on a block number without URL. *)
Definition accounted (w : World) {A} (m : M A) : Prop :=
  forall e, outcome m = inl e ->
    e = HardhatError NODE_FORK_BLOCK_NUMBER_WITHOUT_URL [] None
    \/ exists ev, In ev (trace m) /\ is_watch ev = false /\ throws w ev = Some e.

Definition faithful (w : World) {A} (m : M A) : Prop := escapes w m /\ accounted w m.

(** ** Reading a whole launch *)



Definition creates_server (ev : Event) : bool :=
  match ev with EvNewServer _ => true | _ => false end.

Definition is_probe (ev : Event) : bool :=
  match ev with EvExistsSync _ => true | _ => false end.

Definition is_request (ev : Event) : bool :=
  match ev with EvRequest _ _ => true | _ => false end.



(** The three things the [catch] around the watcher does. *)
Definition watch_report (ev : Event) : bool :=
  match ev with
  | EvConsoleWarn _ | EvReportError _ | EvDebug _ (Some _) => true
  | _ => false
  end.

(** A trace without what the [catch] around the watcher did. *)
Definition without_watch_report (t : list Event) : list Event :=
  filter (fun ev => negb (watch_report ev)) t.

(** Two worlds whose collaborators answer alike, the watcher apart. *)
Definition same_but_watcher (w1 w2 : World) : Prop :=
  (forall f, existsSync w1 f = existsSync w2 f)
  /\ (forall n c pp a, createProvider w1 n c pp a = createProvider w2 n c pp a)
  /\ (forall p r, request w1 p r = request w2 p r)
  /\ (forall c, newJsonRpcServerImpl w1 c = newJsonRpcServerImpl w2 c)
  /\ (forall s, listen w1 s = listen w2 s)
  /\ (forall s, waitUntilClosed w1 s = waitUntilClosed w2 s)
  /\ (forall k, toBuffer w1 k = toBuffer w2 k)
  /\ (forall b, privateToAddress w1 b = privateToAddress w2 b)
  /\ (forall b, bufferToHex w1 b = bufferToHex w2 b)
  /\ (forall s, bnReads w1 s = bnReads w2 s)
  /\ (forall n, exponentNotation w1 n = exponentNotation w2 n)
  /\ (forall d a, hardhatErrorRefuses w1 d a = hardhatErrorRefuses w2 d a)
  /\ (forall b, nullishMessageError w1 b = nullishMessageError w2 b).

(** The server an event hands over or calls, if any. *)
Definition server_of (ev : Event) : option JsonRpcServer :=
  match ev with
  | EvRun (RUN_SERVER_CREATED _ _ _ server) => Some server
  | EvRun (RUN_SERVER_READY _ _ _ server) => Some server
  | EvListen server => Some server
  | EvWaitUntilClosed server => Some server
  | _ => None
  end.

(** The steps of [TASK_NODE], in the order of its text. *)
Inductive Step : Type :=
| GetProvider
| CreateServer
| ServerCreated
| Listen
| Watch
| ServerReady
| WaitUntilClosed.

Definition pipeline : list Step :=
  [GetProvider; CreateServer; ServerCreated; Listen; Watch; ServerReady;
   WaitUntilClosed].

(** The step an event starts, if it starts one. *)
Definition step_of (ev : Event) : option Step :=
  match ev with
  | EvRun (RUN_GET_PROVIDER _ _) => Some GetProvider
  | EvRun (RUN_CREATE_SERVER _ _ _) => Some CreateServer
  | EvRun (RUN_SERVER_CREATED _ _ _ _) => Some ServerCreated
  | EvListen _ => Some Listen
  | EvWatch _ _ => Some Watch
  | EvRun (RUN_SERVER_READY _ _ _ _) => Some ServerReady
  | EvWaitUntilClosed _ => Some WaitUntilClosed
  | _ => None
  end.

Fixpoint steps_of (t : list Event) : list Step :=
  match t with
  | [] => []
  | ev :: t' =>
      match step_of ev with
      | Some s => s :: steps_of t'
      | None => steps_of t'
      end
  end.

(** * Properties *)

(** ** Provider resolution *)

Lemma name_eqb_false (hre : HardhatRuntimeEnvironment) :
  name (network hre) <> HARDHAT_NETWORK_NAME ->
  String.eqb (name (network hre)) HARDHAT_NETWORK_NAME = false.
Proof. intros H. now apply String.eqb_neq. Qed.

Lemma name_eqb_true (hre : HardhatRuntimeEnvironment) :
  name (network hre) = HARDHAT_NETWORK_NAME ->
  String.eqb (name (network hre)) HARDHAT_NETWORK_NAME = true.
Proof. intros H. now apply String.eqb_eq. Qed.

(** ** Lists *)

Lemma filter_nil_of {A} (f : A -> bool) (l : list A) :
  (forall x, In x l -> f x = false) -> filter f l = [].
Proof.
  induction l as [|x l IH]; intros H; [reflexivity|].
  cbn. rewrite (H x (or_introl eq_refl)). apply IH.
  intros y Hy. apply H. now right.
Qed.

Lemma filter_all_of {A} (f : A -> bool) (l : list A) :
  (forall x, In x l -> f x = true) -> filter f l = l.
Proof.
  induction l as [|x l IH]; intros H; [reflexivity|].
  cbn. rewrite (H x (or_introl eq_refl)). f_equal. apply IH.
  intros y Hy. apply H. now right.
Qed.

Lemma Forall_in {A} (P : A -> Prop) (l : list A) :
  (forall x, In x l -> P x) -> Forall P l.
Proof. apply Forall_forall. Qed.

(** Finds an event in a trace made of parts. *)
Ltac find_in :=
  first [ left; reflexivity
        | apply in_or_app;
          first [ left; solve [find_in] | right; solve [find_in] ]
        | right; solve [find_in] ].

(** Running an action symbolically: the monad is unfolded and the answer of
    each collaborator met on the way is split into its cases. *)
Ltac exec_step :=
  cbn [bind ret throw call call_ emit try_catch trace outcome fst snd app
       negb andb nullish optional_chain requests_of run] in *.

Ltac split_answer :=
  match goal with
  | |- context [match createProvider ?w ?n ?c ?pp ?a with _ => _ end] =>
      destruct (createProvider w n c pp a) eqn:?
  | |- context [match request ?w ?p ?r with _ => _ end] =>
      destruct (request w p r) eqn:?
  | |- context [match newJsonRpcServerImpl ?w ?c with _ => _ end] =>
      destruct (newJsonRpcServerImpl w c) eqn:?
  | |- context [match listen ?w ?s with _ => _ end] =>
      destruct (listen w s) as [?|[? ?]] eqn:?
  | |- context [match watchCompilerOutput ?w ?p ?pp with _ => _ end] =>
      destruct (watchCompilerOutput w p pp) eqn:?
  | |- context [match waitUntilClosed ?w ?s with _ => _ end] =>
      destruct (waitUntilClosed w s) eqn:?
  | |- context [if existsSync ?w ?f then _ else _] =>
      destruct (existsSync w f) eqn:?
  end.

Ltac exec := exec_step; repeat (split_answer; exec_step).



(** C4 (amended): the effective fork URL is the override if present, else
    the forking URL of the local network's configuration, and likewise for
    the block number.  A provider resolution that succeeds has issued exactly
    two requests when there is an effective URL (the reset forking from that
    URL at that block, then the logging one) and exactly one otherwise (the
    logging one).  With an effective block number but no effective URL the
    resolution does not succeed and issues no request at all. *)
Theorem C4_fork_configuration_calls (w : World) (fbn : option Z)
    (furl : option string) (hre : HardhatRuntimeEnvironment) :
  let cfg := hardhat (networks (config hre)) in
  let r := TASK_NODE_GET_PROVIDER w fbn furl hre in
  effectiveForkUrl furl cfg =
    match furl with
    | Some u => Some u
    | None => match forking cfg with Some f => url f | None => None end
    end
  /\ effectiveForkBlockNumber fbn cfg =
    match fbn with
    | Some b => Some b
    | None => match forking cfg with Some f => blockNumber f | None => None end
    end
  /\ (forall p, outcome r = inr p ->
        requests_of (trace r) =
          match effectiveForkUrl furl cfg with
          | Some u =>
              [(p, hardhat_reset u (effectiveForkBlockNumber fbn cfg));
               (p, hardhat_setLoggingEnabled true)]
          | None => [(p, hardhat_setLoggingEnabled true)]
          end)
  /\ (effectiveForkUrl furl cfg = None ->
      effectiveForkBlockNumber fbn cfg <> None ->
      requests_of (trace r) = [] /\ forall p, outcome r <> inr p).
Proof.
  cbv zeta. split; [reflexivity|]. split; [reflexivity|].
  unfold TASK_NODE_GET_PROVIDER.
  destruct (negb _);
    destruct (effectiveForkUrl furl _) as [u|];
    destruct (effectiveForkBlockNumber fbn _) as [b|]; exec;
    (split; [intros q Hq; congruence || (injection Hq as <-; reflexivity)
            | intros Hu Hb;
              first [ discriminate | congruence
                    | split; [reflexivity | intros q; discriminate] ]]).
Qed.

Lemma C4_fork_configuration_calls_witness :
  outcome (TASK_NODE_GET_PROVIDER calm_world (Some 100) (Some "http://remote")
             (env_on "hardhat" None)) = inr network_provider
  /\ requests_of (trace (TASK_NODE_GET_PROVIDER calm_world (Some 100)
                           (Some "http://remote") (env_on "hardhat" None)))
     = [(network_provider, hardhat_reset "http://remote" (Some 100));
        (network_provider, hardhat_setLoggingEnabled true)].
Proof.
  split; [reflexivity|].
  destruct (C4_fork_configuration_calls calm_world (Some 100)
              (Some "http://remote") (env_on "hardhat" None))
    as [_ [_ [Hcalls _]]].
  apply (Hcalls network_provider). reflexivity.
Defined.

(** C4 as written fails: with a block number and no URL no request
    is issued, not one; and when the reset request is refused, one request
    is issued although there is an effective URL. *)
Lemma C4_counterexample :
  effectiveForkUrl None (hardhat (networks plain_config)) = None
  /\ requests_of (trace (TASK_NODE_GET_PROVIDER calm_world (Some 100) None
                           (env_on "hardhat" None))) = []
  /\ effectiveForkUrl (Some "http://remote") (hardhat (networks plain_config))
     = Some "http://remote"
  /\ requests_of (trace (TASK_NODE_GET_PROVIDER unreachable_world None
                           (Some "http://remote") (env_on "hardhat" None)))
     = [(network_provider, hardhat_reset "http://remote" None)].
Proof. repeat split. Qed.

(** ** The account listing *)

Lemma account_block_run (w : World) (index : nat)
    (account : HardhatNetworkAccountConfig) :
  account_block w index account =
    match toBuffer w (privateKey account) with
    | inl e => ([EvToBuffer (privateKey account)], inl e)
    | inr keyBuffer =>
        match privateToAddress w keyBuffer with
        | inl e =>
            ([EvToBuffer (privateKey account); EvPrivateToAddress keyBuffer],
             inl e)
        | inr addressBuffer =>
            ([EvToBuffer (privateKey account); EvPrivateToAddress keyBuffer;
              EvToBuffer (privateKey account)],
             inr (account_text index (bufferToHex w addressBuffer)
                    (displayed_balance w account) (bufferToHex w keyBuffer)))
        end
    end.
Proof.
  unfold account_block.
  destruct (toBuffer w (privateKey account)) as [e|keyBuffer] eqn:Hkey;
    cbn [bind call]; [reflexivity|].
  destruct (privateToAddress w keyBuffer) as [e|addressBuffer];
    cbn [bind call ret app]; reflexivity.
Qed.


Lemma account_block_events (w : World) (index : nat)
    (account : HardhatNetworkAccountConfig) (ev : Event) :
  In ev (trace (account_block w index account)) ->
  ev = EvToBuffer (privateKey account)
  \/ exists keyBuffer,
       toBuffer w (privateKey account) = inr keyBuffer
       /\ ev = EvPrivateToAddress keyBuffer.
Proof.
  rewrite account_block_run.
  destruct (toBuffer w (privateKey account)) as [e|keyBuffer];
    [|destruct (privateToAddress w keyBuffer)];
    cbn [trace fst In]; intuition eauto.
Qed.




Lemma server_ready_accountless (w : World) (address : string) (port : Z)
    (p : EthereumProvider) (server : JsonRpcServer)
    (hre : HardhatRuntimeEnvironment) :
  accounts (hardhat (networks (config hre))) = None ->
  TASK_NODE_SERVER_READY w address port p server hre =
    ([EvConsoleLog (chalk_green (started_banner w address port));
      EvConsoleLog (plain "")], inr tt).
Proof.
  intros H. unfold TASK_NODE_SERVER_READY, logHardhatNetworkAccounts.
  rewrite H. reflexivity.
Qed.

Lemma server_ready_listing (w : World) (address : string) (port : Z)
    (p : EthereumProvider) (server : JsonRpcServer)
    (hre : HardhatRuntimeEnvironment)
    (entries : list HardhatNetworkAccountConfig) :
  accounts (hardhat (networks (config hre))) = Some entries ->
  trace (TASK_NODE_SERVER_READY w address port p server hre) =
    (EvConsoleLog (chalk_green (started_banner w address port))
     :: EvConsoleLog (plain "")
     :: EvConsoleLog (plain "Accounts")
     :: EvConsoleLog (plain "========")
     :: trace (logAccountsFrom w 0 entries))
  /\ outcome (TASK_NODE_SERVER_READY w address port p server hre) =
     outcome (logAccountsFrom w 0 entries).
Proof.
  intros H. unfold TASK_NODE_SERVER_READY, logHardhatNetworkAccounts.
  rewrite H. destruct (logAccountsFrom w 0 entries) as [t r].
  split; reflexivity.
Qed.

Lemma in_logAccountsFrom (w : World)
    (entries : list HardhatNetworkAccountConfig) (ev : Event) :
  forall index,
    In ev (trace (logAccountsFrom w index entries)) -> ready_event ev = true.
Proof.
  induction entries as [|account rest IH]; intros index H; [destruct H|].
  cbn [logAccountsFrom] in H.
  pose proof (account_block_events w index account) as Hb.
  specialize (IH (S index)).
  destruct (account_block w index account) as [t [e|text]];
    destruct (logAccountsFrom w (S index) rest) as [t' r];
    cbn [emit bind trace fst app] in H, Hb, IH.
  - apply Hb in H as [->|[kb [_ ->]]]; reflexivity.
  - apply in_app_or in H as [H|[<-|H]]; [|reflexivity|exact (IH H)].
    apply Hb in H as [->|[kb [_ ->]]]; reflexivity.
Qed.

(** The events of the server-ready action. *)
Lemma in_ready (w : World) (address : string) (port : Z)
    (p : EthereumProvider) (server : JsonRpcServer)
    (hre : HardhatRuntimeEnvironment) (ev : Event) :
  In ev (trace (TASK_NODE_SERVER_READY w address port p server hre)) ->
  ready_event ev = true.
Proof.
  destruct (accounts (hardhat (networks (config hre)))) as [entries|] eqn:Ha.
  - rewrite (proj1 (server_ready_listing w address port p server hre entries Ha)).
    intros [<-|[<-|[<-|[<-|H]]]]; try reflexivity.
    exact (in_logAccountsFrom w entries ev 0%nat H).
  - rewrite (server_ready_accountless w address port p server hre Ha).
    intros [<-|[<-|[]]]; reflexivity.
Qed.

(** ** Balances *)

(** [new BN(s)] reads the decimal numeral of an integer as that integer. *)
Lemma BN_of_string_numeral (w : World) (n : Z) :
  BN.of_string w (number_toString n) = n.
Proof.
  unfold BN.of_string, number_toString.
  rewrite NilZero.isi.
  - apply DecimalZ.of_to.
  - destruct n; cbn; try discriminate;
      intros [= H]; now apply (DecimalPos.Unsigned.to_uint_nonnil p).
  - destruct n; cbn; try discriminate;
      intros [= H]; now apply (DecimalPos.Unsigned.to_uint_nonnil p).
Qed.





(** C10 (amended): the balance shown is what [new BN] reads in the balance
    of the account (for a decimal numeral, the integer it denotes), divided
    by 10^18 with the quotient truncated toward zero.  For a balance that is
    not negative this is the floor of the balance divided by 10^18: the
    remainder is dropped, and a balance below 10^18 is shown as 0. *)
Theorem C10_balance_truncation (w : World)
    (account : HardhatNetworkAccountConfig) :
  let n := BN.of_string w (balance account) in
  (forall m, balance account = number_toString m -> n = m)
  /\ displayed_balance w account = number_toString (Z.quot n (10 ^ 18))
  /\ (0 <= n ->
      displayed_balance w account = number_toString (n / 10 ^ 18)
      /\ 10 ^ 18 * (n / 10 ^ 18) <= n < 10 ^ 18 * (n / 10 ^ 18) + 10 ^ 18
      /\ (n < 10 ^ 18 -> displayed_balance w account = "0")).
Proof.
  cbv zeta. split; [|split].
  - intros m ->. apply BN_of_string_numeral.
  - reflexivity.
  - intros Hpos.
    unfold displayed_balance, BN.toString, BN.div, BN.pow, BN.of_number.
    rewrite Z.quot_div_nonneg by lia.
    split; [reflexivity|]. split.
    + pose proof (Z.mul_div_le (BN.of_string w (balance account)) (10 ^ 18)
                    ltac:(lia)).
      pose proof (Z.mul_succ_div_gt (BN.of_string w (balance account))
                    (10 ^ 18) ltac:(lia)). lia.
    + intros Hlt. rewrite Z.div_small by lia. reflexivity.
Qed.

Lemma C10_balance_truncation_witness :
  balance poor_account = number_toString 999999999999999999
  /\ BN.of_string calm_world (balance poor_account) = 999999999999999999
  /\ displayed_balance calm_world poor_account = "0".
Proof.
  assert (H : balance poor_account = number_toString 999999999999999999)
    by (vm_compute; reflexivity).
  destruct (C10_balance_truncation calm_world poor_account) as [Hn [_ Hfloor]].
  pose proof (Hn _ H) as Hm.
  split; [exact H|]. split; [exact Hm|].
  rewrite Hm in Hfloor. apply Hfloor; lia.
Defined.

(** C10 as written fails: a negative balance is accepted, and its quotient
    is truncated toward zero, so that what is shown is neither the floor of
    the balance divided by 10^18 nor, for this balance below 10^18, 0. *)
Lemma C10_counterexample :
  balance indebted_account = number_toString (- 1500000000000000000)
  /\ displayed_balance calm_world indebted_account = "-1"
  /\ number_toString ((- 1500000000000000000) / 10 ^ 18) = "-2"
  /\ - 1500000000000000000 < 10 ^ 18.
Proof. repeat split. Qed.
(** ** The network check *)

Lemma unsupported_network_iff (hre : HardhatRuntimeEnvironment) :
  unsupported_network hre = true <->
  name (network hre) <> HARDHAT_NETWORK_NAME
  /\ network_argument (hardhatArguments hre) <> None.
Proof.
  unfold unsupported_network. rewrite andb_true_iff, negb_true_iff, String.eqb_neq.
  destruct (network_argument (hardhatArguments hre)); intuition congruence.
Qed.

Lemma TASK_NODE_refused (w : World) (args : NodeTaskArguments)
    (hre : HardhatRuntimeEnvironment) :
  unsupported_network hre = true ->
  TASK_NODE w args hre = ([], inl (HardhatError JSONRPC_UNSUPPORTED_NETWORK [] None)).
Proof. intros H. unfold TASK_NODE. rewrite H. reflexivity. Qed.

Lemma TASK_NODE_accepted (w : World) (args : NodeTaskArguments)
    (hre : HardhatRuntimeEnvironment) :
  unsupported_network hre = false ->
  TASK_NODE w args hre = try_catch (launch w args hre) (rethrow w).
Proof.
  intros H. unfold TASK_NODE. rewrite H. cbn [bind ret].
  destruct (try_catch _ _) as [t r]. reflexivity.
Qed.

Lemma rethrow_run {A} (w : World) (e : Thrown) :
  @rethrow A w e = ([], inl (rethrown w e)).
Proof.
  unfold rethrown, rethrow, read_message, new_HardhatError.
  destruct e as [d a pe|m| |isNull]; cbn; try reflexivity;
    destruct (hardhatErrorRefuses w JSONRPC_SERVER_ERROR _); reflexivity.
Qed.

(** What the outer [catch] throws, case by case. *)
Lemma rethrown_cases (w : World) (e : Thrown) :
  rethrown w e =
    match e with
    | HardhatError _ _ _ => e
    | Error message =>
        match hardhatErrorRefuses w JSONRPC_SERVER_ERROR
                [("error", Some message)] with
        | Some refusal => refusal
        | None => HardhatError JSONRPC_SERVER_ERROR [("error", Some message)]
                    (Some e)
        end
    | Value =>
        match hardhatErrorRefuses w JSONRPC_SERVER_ERROR [("error", None)] with
        | Some refusal => refusal
        | None => HardhatError JSONRPC_SERVER_ERROR [("error", None)] (Some e)
        end
    | Nullish isNull => Error (nullishMessageError w isNull)
    end.
Proof.
  unfold rethrown, rethrow, read_message, new_HardhatError.
  destruct e as [d a pe|m| |isNull]; cbn; try reflexivity;
    destruct (hardhatErrorRefuses w JSONRPC_SERVER_ERROR _); reflexivity.
Qed.

Lemma catch_rethrow_trace {A} (w : World) (m : M A) :
  trace (try_catch m (rethrow w)) = trace m.
Proof.
  destruct m as [t [e|a]]; cbn [try_catch]; [|reflexivity].
  rewrite rethrow_run. cbn. apply app_nil_r.
Qed.

Lemma catch_rethrow_outcome {A} (w : World) (m : M A) :
  outcome (try_catch m (rethrow w)) =
    match outcome m with
    | inl e => inl (rethrown w e)
    | inr a => inr a
    end.
Proof.
  destruct m as [t [e|a]]; cbn [try_catch]; [|reflexivity].
  rewrite rethrow_run. reflexivity.
Qed.

(** ** Where errors come from *)

Section Origins.

Variable w : World.

Lemma faithful_ret {A} (a : A) : faithful w (ret a).
Proof. split; [intros ev e []|intros e [=]]. Qed.

Lemma faithful_config_error {A} :
  faithful w (@throw A (HardhatError NODE_FORK_BLOCK_NUMBER_WITHOUT_URL [] None)).
Proof. split; [intros ev e []|intros e [= <-]; now left]. Qed.

Lemma faithful_emit (ev : Event) : throws w ev = None -> faithful w (emit ev).
Proof.
  intros H. split.
  - intros ev' e [<-|[]] _ He. congruence.
  - intros e [=].
Qed.

Lemma faithful_call {A} (ev : Event) (answer : Thrown + A) :
  is_watch ev = false ->
  throws w ev = match answer with inl e => Some e | inr _ => None end ->
  faithful w (call ev answer).
Proof.
  intros Hw H. split.
  - intros ev' e [<-|[]] _ He. destruct answer; cbn; congruence.
  - intros e He. cbn in He. subst answer. right. exists ev. cbn. auto.
Qed.

Lemma faithful_call_ (ev : Event) (answer : option Thrown) :
  is_watch ev = false -> throws w ev = answer -> faithful w (call_ ev answer).
Proof.
  intros Hw H. split.
  - intros ev' e [<-|[]] _ He. cbn. destruct answer; congruence.
  - intros e He. cbn in He. destruct answer as [e'|]; [|discriminate].
    injection He as <-. right. exists ev. cbn. auto.
Qed.

Lemma faithful_bind {A B} (m : M A) (f : A -> M B) :
  faithful w m -> (forall a, faithful w (f a)) -> faithful w (bind m f).
Proof.
  intros [Em Am] Hf. destruct m as [t [e0|a]]; cbn [bind].
  - split.
    + intros ev e Hin Hw He. specialize (Em ev e Hin Hw He).
      cbn in *. congruence.
    + intros e He. apply (Am e). cbn in *. congruence.
  - destruct (Hf a) as [Ef Af]. destruct (f a) as [t' r]. split.
    + intros ev e Hin Hw He. cbn in Hin. apply in_app_or in Hin as [Hin|Hin].
      * specialize (Em ev e Hin Hw He). discriminate.
      * exact (Ef ev e Hin Hw He).
    + intros e He. destruct (Af e He) as [->|[ev [Hin H]]]; [now left|].
      right. exists ev. split; [|exact H]. cbn. apply in_or_app. now right.
Qed.

Lemma faithful_watch_guarded (p : EthereumProvider) (pp : ProjectPathsConfig) :
  faithful w (watch_guarded w p pp).
Proof.
  unfold watch_guarded. destruct (watchCompilerOutput w p pp) as [e0|]; cbn; split.
  - intros ev e Hin Hw He. cbn in Hin.
    repeat (destruct Hin as [<-|Hin]; [discriminate|]). destruct Hin.
  - intros e [=].
  - intros ev e Hin Hw He. cbn in Hin.
    repeat (destruct Hin as [<-|Hin]; [discriminate|]). destruct Hin.
  - intros e [=].
Qed.

Lemma faithful_account_block (index : nat)
    (account : HardhatNetworkAccountConfig) :
  faithful w (account_block w index account).
Proof.
  unfold account_block.
  apply faithful_bind; [now apply faithful_call|intros keyBuffer].
  apply faithful_bind; [now apply faithful_call|intros addressBuffer].
  apply faithful_bind; [now apply faithful_call|intros keyBuffer'].
  apply faithful_ret.
Qed.

Lemma faithful_logAccountsFrom (entries : list HardhatNetworkAccountConfig) :
  forall index, faithful w (logAccountsFrom w index entries).
Proof.
  induction entries as [|account rest IH]; intros index; [apply faithful_ret|].
  cbn [logAccountsFrom].
  apply faithful_bind; [apply faithful_account_block|intros text].
  apply faithful_bind; [now apply faithful_emit|intros _]. apply IH.
Qed.

Lemma faithful_server_ready (address : string) (port : Z) (p : EthereumProvider)
    (server : JsonRpcServer) (hre : HardhatRuntimeEnvironment) :
  faithful w (TASK_NODE_SERVER_READY w address port p server hre).
Proof.
  unfold TASK_NODE_SERVER_READY, logHardhatNetworkAccounts.
  apply faithful_bind; [now apply faithful_emit|intros _].
  apply faithful_bind; [now apply faithful_emit|intros _].
  destruct (accounts _) as [entries|]; [|apply faithful_ret].
  apply faithful_bind; [now apply faithful_emit|intros _].
  apply faithful_bind; [now apply faithful_emit|intros _].
  apply faithful_logAccountsFrom.
Qed.

Lemma faithful_get_provider (fbn : option Z) (furl : option string)
    (hre : HardhatRuntimeEnvironment) :
  faithful w (TASK_NODE_GET_PROVIDER w fbn furl hre).
Proof.
  unfold TASK_NODE_GET_PROVIDER. apply faithful_bind.
  - destruct (negb _); [|apply faithful_ret].
    apply faithful_bind; [now apply faithful_emit|intros _].
    now apply faithful_call.
  - intros p. apply faithful_bind.
    + destruct (effectiveForkUrl _ _); [now apply faithful_call_|].
      destruct (effectiveForkBlockNumber _ _);
        [apply faithful_config_error | apply faithful_ret].
    + intros _. apply faithful_bind; [now apply faithful_call_|].
      intros _. apply faithful_ret.
Qed.

Lemma faithful_run {A} (c : TaskCall) (action : M A) :
  faithful w action -> faithful w (run c action).
Proof.
  intros H. unfold run. apply faithful_bind; [now apply faithful_emit|].
  intros _. exact H.
Qed.

Lemma faithful_launch (args : NodeTaskArguments) (hre : HardhatRuntimeEnvironment) :
  faithful w (launch w args hre).
Proof.
  unfold launch.
  apply faithful_bind; [apply faithful_run, faithful_get_provider|intros p].
  apply faithful_bind.
  { unfold resolve_hostname. destruct (hostnameParam args); [apply faithful_ret|].
    apply faithful_bind; [now apply faithful_call|].
    intros []; apply faithful_ret. }
  intros hostname. apply faithful_bind.
  { apply faithful_run. unfold TASK_NODE_CREATE_SERVER.
    apply faithful_bind; [now apply faithful_call|]. intros s. apply faithful_ret. }
  intros server. apply faithful_bind; [apply faithful_run, faithful_ret|intros _].
  apply faithful_bind; [apply faithful_call; [reflexivity|]|].
  { cbn. destruct (listen w server); reflexivity. }
  intros [actualPort address].
  apply faithful_bind; [apply faithful_watch_guarded|intros _].
  apply faithful_bind; [apply faithful_run, faithful_server_ready|intros _].
  now apply faithful_call_.
Qed.

End Origins.

Lemma TASK_NODE_trace (w : World) (args : NodeTaskArguments)
    (hre : HardhatRuntimeEnvironment) :
  trace (TASK_NODE w args hre) =
    if unsupported_network hre then [] else trace (launch w args hre).
Proof.
  destruct (unsupported_network hre) eqn:H.
  - now rewrite TASK_NODE_refused.
  - rewrite TASK_NODE_accepted by exact H. apply catch_rethrow_trace.
Qed.

Lemma TASK_NODE_outcome (w : World) (args : NodeTaskArguments)
    (hre : HardhatRuntimeEnvironment) :
  outcome (TASK_NODE w args hre) =
    if unsupported_network hre
    then inl (HardhatError JSONRPC_UNSUPPORTED_NETWORK [] None)
    else match outcome (launch w args hre) with
         | inl e => inl (rethrown w e)
         | inr a => inr a
         end.
Proof.
  destruct (unsupported_network hre) eqn:H.
  - now rewrite TASK_NODE_refused.
  - rewrite TASK_NODE_accepted by exact H. apply catch_rethrow_outcome.
Qed.




Lemma rethrown_descriptor (w : World) (d : ErrorDescriptor) (e : Thrown) :
  never_thrown d w ->
  descriptor_eqb d JSONRPC_SERVER_ERROR = false ->
  has_descriptor d e = false ->
  has_descriptor d (rethrown w e) = false.
Proof.
  intros [_ Hc] Hd He. rewrite rethrown_cases.
  destruct e as [d' a pe|m| |isNull]; [exact He| | |reflexivity];
    destruct (hardhatErrorRefuses w JSONRPC_SERVER_ERROR _) eqn:Hr;
    first [exact (Hc _ _ _ Hr) | exact Hd].
Qed.

(** C2: provided no collaborator throws it, the task ends with a
    [JSONRPC_UNSUPPORTED_NETWORK] error if and only if the network in use is
    not the local one and a network was given on the command line; on the
    local network it never does; and when it does, nothing has been called
    yet, provider resolution included. *)
Theorem C2_unsupported_network (w : World) (args : NodeTaskArguments)
    (hre : HardhatRuntimeEnvironment) :
  never_thrown JSONRPC_UNSUPPORTED_NETWORK w ->
  let r := TASK_NODE w args hre in
  ((exists e, outcome r = inl e
              /\ has_descriptor JSONRPC_UNSUPPORTED_NETWORK e = true)
   <-> name (network hre) <> HARDHAT_NETWORK_NAME
       /\ network_argument (hardhatArguments hre) <> None)
  /\ (name (network hre) = HARDHAT_NETWORK_NAME ->
      forall e, outcome r = inl e ->
                has_descriptor JSONRPC_UNSUPPORTED_NETWORK e = false)
  /\ (forall e, outcome r = inl e ->
                has_descriptor JSONRPC_UNSUPPORTED_NETWORK e = true ->
                trace r = []
                /\ e = HardhatError JSONRPC_UNSUPPORTED_NETWORK [] None).
Proof.
  intros Hw. cbv zeta.
  assert (Hlaunch : forall e, outcome (launch w args hre) = inl e ->
            has_descriptor JSONRPC_UNSUPPORTED_NETWORK (rethrown w e) = false).
  { intros e He. apply rethrown_descriptor; [exact Hw|reflexivity|].
    destruct (proj2 (faithful_launch w args hre) e He) as [->|[ev [_ [_ Hev]]]];
      [reflexivity|].
    exact (proj1 Hw ev e Hev). }
  rewrite TASK_NODE_trace, TASK_NODE_outcome, <- unsupported_network_iff.
  destruct (unsupported_network hre) eqn:Hu.
  - split; [|split].
    + split; [reflexivity|]. intros _. eexists. split; reflexivity.
    + intros Hname. apply unsupported_network_iff in Hu. now destruct Hu.
    + intros e [= <-] _. split; reflexivity.
  - destruct (outcome (launch w args hre)) as [e0|[]] eqn:Ho.
    + specialize (Hlaunch e0 eq_refl). split; [|split].
      * split; [|discriminate]. intros [e [[= <-] He]]. congruence.
      * intros _ e [= <-]. exact Hlaunch.
      * intros e [= <-] He. congruence.
    + split; [|split].
      * split; [|discriminate]. intros [e [[=] _]].
      * intros _ e [=].
      * intros e [=].
Qed.

Lemma calm_world_never_throws (d : ErrorDescriptor) : never_thrown d calm_world.
Proof.
  split.
  - intros ev e H. destruct ev; discriminate H.
  - intros d' arguments e H. discriminate H.
Qed.

Lemma C2_unsupported_network_witness :
  never_thrown JSONRPC_UNSUPPORTED_NETWORK calm_world
  /\ exists e,
       outcome (TASK_NODE calm_world default_args
                  (env_on "localhost" (Some "localhost"))) = inl e
       /\ has_descriptor JSONRPC_UNSUPPORTED_NETWORK e = true.
Proof.
  split; [apply calm_world_never_throws|].
  destruct (C2_unsupported_network calm_world default_args
              (env_on "localhost" (Some "localhost"))
              (calm_world_never_throws _)) as [[_ Hraise] _].
  apply Hraise. split; discriminate.
Defined.

(** ** The shape of a launch *)

Lemma resolve_hostname_run (w : World) (hp : option string) :
  resolve_hostname w hp = (hostname_events hp, inr (resolved_hostname w hp)).
Proof.
  destruct hp as [h|]; [reflexivity|].
  unfold resolve_hostname, resolved_hostname. cbn.
  destruct (existsSync w "/.dockerenv"); reflexivity.
Qed.

Lemma watch_guarded_run (w : World) (p : EthereumProvider) (pp : ProjectPathsConfig) :
  watch_guarded w p pp = (watch_events w p pp, inr tt).
Proof.
  unfold watch_guarded, watch_events.
  destruct (watchCompilerOutput w p pp); reflexivity.
Qed.

Lemma get_provider_events (w : World) (fbn : option Z) (furl : option string)
    (hre : HardhatRuntimeEnvironment) :
  Forall (fun ev => resolution_event ev = true)
         (trace (TASK_NODE_GET_PROVIDER w fbn furl hre)).
Proof.
  unfold TASK_NODE_GET_PROVIDER.
  destruct (negb _);
    destruct (effectiveForkUrl furl _) as [u|];
    destruct (effectiveForkBlockNumber fbn _) as [b|]; exec;
    repeat constructor.
Qed.

(** The launch, one collaborator after the other. *)
Lemma launch_unfold (w : World) (args : NodeTaskArguments)
    (hre : HardhatRuntimeEnvironment) :
  launch w args hre =
    let resolution :=
      TASK_NODE_GET_PROVIDER w (forkBlockNumber args) (forkUrl args) hre in
    let t_resolution :=
      EvRun (RUN_GET_PROVIDER (forkBlockNumber args) (forkUrl args))
      :: trace resolution in
    match outcome resolution with
    | inl e => (t_resolution, inl e)
    | inr p =>
        let hostname := resolved_hostname w (hostnameParam args) in
        let serverConfig :=
          {| cfg_hostname := hostname; cfg_port := port args; cfg_provider := p |} in
        let t_create :=
          (t_resolution ++ hostname_events (hostnameParam args)
             ++ [EvRun (RUN_CREATE_SERVER hostname (port args) p);
                 EvNewServer serverConfig])%list in
        match newJsonRpcServerImpl w serverConfig with
        | inl e => (t_create, inl e)
        | inr server =>
            let t_listen :=
              (t_create
                 ++ [EvRun (RUN_SERVER_CREATED hostname (port args) p server);
                     EvListen server])%list in
            match listen w server with
            | inl e => (t_listen, inl e)
            | inr (actualPort, address) =>
                let ready :=
                  TASK_NODE_SERVER_READY w address actualPort p server hre in
                let t_ready :=
                  (t_listen ++ watch_events w p (paths (config hre))
                     ++ [EvRun (RUN_SERVER_READY address actualPort p server)]
                     ++ trace ready)%list in
                match outcome ready with
                | inl e => (t_ready, inl e)
                | inr _ =>
                    ((t_ready ++ [EvWaitUntilClosed server])%list,
                     match waitUntilClosed w server with
                     | Some e => inl e
                     | None => inr tt
                     end)
                end
            end
        end
    end.
Proof.
  cbv zeta. unfold launch.
  destruct (TASK_NODE_GET_PROVIDER _ _ _ _) as [t [e|p]]; exec_step;
    [reflexivity|].
  rewrite resolve_hostname_run. unfold TASK_NODE_CREATE_SERVER, TASK_NODE_SERVER_CREATED.
  exec_step.
  destruct (newJsonRpcServerImpl w _) as [e|server]; exec_step.
  { repeat (rewrite <- ?app_assoc; cbn [app]). reflexivity. }
  destruct (listen w server) as [e|[actualPort address]]; exec_step.
  { repeat (rewrite <- ?app_assoc; cbn [app]). reflexivity. }
  rewrite watch_guarded_run. exec_step.
  destruct (TASK_NODE_SERVER_READY w address actualPort p server hre)
    as [t_ready [e|[]]]; exec_step.
  { repeat (rewrite <- ?app_assoc; cbn [app]). reflexivity. }
  destruct (waitUntilClosed w server);
    repeat (rewrite <- ?app_assoc; cbn [app]); reflexivity.
Qed.

Lemma in_resolution (w : World) (fbn : option Z) (furl : option string)
    (hre : HardhatRuntimeEnvironment) (ev : Event) :
  In ev (trace (TASK_NODE_GET_PROVIDER w fbn furl hre)) ->
  resolution_event ev = true.
Proof.
  intros H. pose proof (get_provider_events w fbn furl hre) as HF.
  rewrite Forall_forall in HF. exact (HF ev H).
Qed.

Lemma in_hostname_events (hp : option string) (ev : Event) :
  In ev (hostname_events hp) -> ev = EvExistsSync "/.dockerenv".
Proof. destruct hp; cbn; intuition. Qed.

Lemma in_watch_events (w : World) (p : EthereumProvider)
    (pp : ProjectPathsConfig) (ev : Event) :
  In ev (watch_events w p pp) ->
  ev = EvWatch p pp
  \/ (exists e, watchCompilerOutput w p pp = Some e
                /\ (ev = EvConsoleWarn (chalk_yellow watch_warning)
                    \/ ev = EvDebug watch_debug (Some e)
                    \/ ev = EvReportError e)).
Proof.
  unfold watch_events. intros [<-|H]; [now left|]. right.
  destruct (watchCompilerOutput w p pp) as [e|]; [|destruct H].
  exists e. split; [reflexivity|]. cbn in H. intuition.
Qed.

(** Membership in a trace built by [launch_unfold], part by part. *)
Ltac in_trace H :=
  cbn [In app] in H;
  lazymatch type of H with
  | In _ (_ ++ _)%list => apply in_app_or in H; destruct H as [H|H]; in_trace H
  | _ \/ _ => destruct H as [H|H]; in_trace H
  | False => destruct H
  | In _ (trace (TASK_NODE_GET_PROVIDER _ _ _ _)) =>
      apply in_resolution in H; try discriminate H
  | In _ (hostname_events _) => apply in_hostname_events in H; try discriminate H
  | In _ (watch_events _ _ _) =>
      apply in_watch_events in H;
      destruct H as [H|[? [? [H|[H|H]]]]]; try discriminate H
  | In _ (trace (TASK_NODE_SERVER_READY _ _ _ _ _ _)) =>
      apply in_ready in H; try discriminate H
  | _ = _ => try discriminate H
  | _ => idtac
  end.

(** C3: a hostname given on the command line is the hostname of the server
    as it is; without one the hostname is "0.0.0.0" when [/.dockerenv]
    exists and "localhost" when it does not.  The server is constructed
    with that hostname and the server-created hook receives it. *)
Theorem C3_hostname_resolution (w : World) (args : NodeTaskArguments)
    (hre : HardhatRuntimeEnvironment) :
  let r := TASK_NODE w args hre in
  let resolved := outcome (resolve_hostname w (hostnameParam args)) in
  (forall h, hostnameParam args = Some h -> resolved = inr h)
  /\ (hostnameParam args = None -> existsSync w "/.dockerenv" = true ->
      resolved = inr "0.0.0.0")
  /\ (hostnameParam args = None -> existsSync w "/.dockerenv" = false ->
      resolved = inr "localhost")
  /\ (forall serverConfig, In (EvNewServer serverConfig) (trace r) ->
      resolved = inr (cfg_hostname serverConfig))
  /\ (forall h n p s, In (EvRun (RUN_SERVER_CREATED h n p s)) (trace r) ->
      resolved = inr h).
Proof.
  cbv zeta. rewrite resolve_hostname_run. cbn [outcome snd].
  split; [intros h ->; reflexivity|].
  split; [intros -> Hd; cbn; now rewrite Hd|].
  split; [intros -> Hd; cbn; now rewrite Hd|].
  rewrite TASK_NODE_trace. destruct (unsupported_network hre);
    [split; intros; contradiction|].
  rewrite launch_unfold. cbv zeta.
  destruct (outcome (TASK_NODE_GET_PROVIDER _ _ _ _)) as [e|p].
  { cbn [trace fst]. split; [intros c H|intros h n p s H]; in_trace H. }
  destruct (newJsonRpcServerImpl w _) as [e|server].
  { cbn [trace fst]. split; [intros c H|intros h n q s H]; in_trace H.
    now injection H as <-. }
  destruct (listen w server) as [e|[actualPort address]].
  { cbn [trace fst]. split; [intros c H|intros h n q s H]; in_trace H.
    - now injection H as <-.
    - now injection H as <- _ _ _. }
  destruct (outcome (TASK_NODE_SERVER_READY _ _ _ _ _ _)) as [e|[]];
    cbn [trace fst]; (split; [intros c H|intros h n q s H]); in_trace H;
    first [now injection H as <- | now injection H as <- _ _ _].
Qed.

Lemma C3_hostname_resolution_witness :
  hostnameParam default_args = None
  /\ existsSync calm_world "/.dockerenv" = false
  /\ outcome (resolve_hostname calm_world (hostnameParam default_args))
     = inr "localhost"
  /\ In (EvNewServer {| cfg_hostname := "localhost"; cfg_port := 8545;
                        cfg_provider := network_provider |})
        (trace (TASK_NODE calm_world default_args (env_on "hardhat" None))).
Proof.
  split; [reflexivity|]. split; [reflexivity|]. split.
  - destruct (C3_hostname_resolution calm_world default_args (env_on "hardhat" None))
      as [_ [_ [Hlocal _]]].
    apply Hlocal; reflexivity.
  - vm_compute. do 4 right. left. reflexivity.
Defined.

(** ** Block number without URL *)

(** C1 (amended): take a launch that passes the network check, with a fork
    block number (on the command line or else in the configuration) and no
    fork URL, neither on the command line nor in the configuration of the
    local network.  On the local network
    it fails with [NODE_FORK_BLOCK_NUMBER_WITHOUT_URL] and has called no
    collaborator at all.  On another network the provider of the local
    network is constructed first; when that construction succeeds the launch
    fails with the same error, and nothing else has been called: no provider
    request, no server. *)
Theorem C1_block_number_without_url (w : World) (args : NodeTaskArguments)
    (hre : HardhatRuntimeEnvironment) (n : Z) :
  effectiveForkBlockNumber (forkBlockNumber args)
    (hardhat (networks (config hre))) = Some n ->
  forkUrl args = None ->
  optional_chain (forking (hardhat (networks (config hre)))) url = None ->
  unsupported_network hre = false ->
  let r := TASK_NODE w args hre in
  let construction :=
    EvCreateProvider HARDHAT_NETWORK_NAME (hardhat (networks (config hre)))
      (paths (config hre)) (artifacts hre) in
  (name (network hre) = HARDHAT_NETWORK_NAME ->
     outcome r = inl (HardhatError NODE_FORK_BLOCK_NUMBER_WITHOUT_URL [] None)
     /\ trace r = [EvRun (RUN_GET_PROVIDER (forkBlockNumber args) None)])
  /\ (name (network hre) <> HARDHAT_NETWORK_NAME ->
      throws w construction = None ->
      outcome r = inl (HardhatError NODE_FORK_BLOCK_NUMBER_WITHOUT_URL [] None)
      /\ trace r =
           [EvRun (RUN_GET_PROVIDER (forkBlockNumber args) None);
            EvDebug "Creating hardhat provider for JSON-RPC server" None;
            construction]).
Proof.
  intros Hb Hu Hcfg Hok. cbv zeta.
  rewrite TASK_NODE_trace, TASK_NODE_outcome, Hok, launch_unfold. cbv zeta.
  rewrite Hu. unfold TASK_NODE_GET_PROVIDER. rewrite Hb.
  unfold effectiveForkUrl. cbn [nullish]. rewrite Hcfg.
  split; intros Hname.
  - rewrite (name_eqb_true hre Hname). split; reflexivity.
  - rewrite (name_eqb_false hre Hname). cbn [throws negb]. intros Hmade.
    destruct (createProvider w _ _ _ _) as [e|p]; [discriminate|].
    split; reflexivity.
Qed.

Lemma C1_block_number_without_url_witness :
  forkBlockNumber block_only_args = Some 100
  /\ unsupported_network (env_on "hardhat" None) = false
  /\ outcome (TASK_NODE calm_world block_only_args (env_on "hardhat" None))
     = inl (HardhatError NODE_FORK_BLOCK_NUMBER_WITHOUT_URL [] None)
  /\ trace (TASK_NODE calm_world block_only_args (env_on "hardhat" None))
     = [EvRun (RUN_GET_PROVIDER (Some 100) None)].
Proof.
  split; [reflexivity|]. split; [reflexivity|].
  destruct (C1_block_number_without_url calm_world block_only_args
              (env_on "hardhat" None) 100 eq_refl eq_refl eq_refl eq_refl)
    as [Hlocal _].
  apply Hlocal. reflexivity.
Defined.

(** C1 as written fails: on a network that is not the local one
    (and was not given on the command line) a provider is constructed before
    the launch fails; and on a network given on the command line the launch
    fails with another error. *)
Lemma C1_counterexample :
  forkBlockNumber block_only_args = Some 100
  /\ forkUrl block_only_args = None
  /\ forking (hardhat (networks plain_config)) = None
  /\ outcome (TASK_NODE calm_world block_only_args (env_on "localhost" None))
     = inl (HardhatError NODE_FORK_BLOCK_NUMBER_WITHOUT_URL [] None)
  /\ existsb creates_provider
       (trace (TASK_NODE calm_world block_only_args (env_on "localhost" None)))
     = true
  /\ outcome (TASK_NODE calm_world block_only_args
                (env_on "localhost" (Some "localhost")))
     = inl (HardhatError JSONRPC_UNSUPPORTED_NETWORK [] None).
Proof. repeat split. Qed.

(** ** The two hooks *)

Lemma success_reaches_serving (w : World) (args : NodeTaskArguments)
    (hre : HardhatRuntimeEnvironment) :
  outcome (TASK_NODE w args hre) = inr tt ->
  exists server, reaches_serving (TASK_NODE w args hre) server.
Proof.
  unfold reaches_serving. rewrite TASK_NODE_trace, TASK_NODE_outcome.
  destruct (unsupported_network hre); [discriminate|].
  rewrite launch_unfold. cbv zeta.
  destruct (outcome (TASK_NODE_GET_PROVIDER _ _ _ _)) as [e|p]; [discriminate|].
  destruct (newJsonRpcServerImpl w _) as [e|server]; [discriminate|].
  destruct (listen w server) as [e|[actualPort address]]; [discriminate|].
  destruct (outcome (TASK_NODE_SERVER_READY _ _ _ _ _ _)) as [e|[]];
    [discriminate|].
  intros _. exists server. cbn [trace fst].
  repeat (apply in_or_app; right). now left.
Qed.

Lemma resolution_event_quiet (ev : Event) :
  resolution_event ev = true ->
  is_listen ev = false /\ is_created_hook ev = false /\ is_ready_hook ev = false
  /\ is_watch ev = false.
Proof. destruct ev; cbn; intuition discriminate. Qed.

Lemma ready_event_quiet (ev : Event) :
  ready_event ev = true ->
  is_listen ev = false /\ is_created_hook ev = false /\ is_ready_hook ev = false
  /\ is_watch ev = false.
Proof. destruct ev; cbn; intuition discriminate. Qed.

(** C5: in a launch that reaches its steady state the trace reads: the
    server-created hook, then [listen], later the server-ready hook with the
    port and address [listen] returned, then the lines the hook prints and
    [waitUntilClosed]; there is no other [listen] and no other call of
    either hook.  The port the ready hook receives is the one [listen]
    answered, whatever port was asked for. *)
Theorem C5_hook_ordering (w : World) (args : NodeTaskArguments)
    (hre : HardhatRuntimeEnvironment) (server : JsonRpcServer) :
  reaches_serving (TASK_NODE w args hre) server ->
  exists before between logs hostname p address actualPort,
    trace (TASK_NODE w args hre) =
      (before
         ++ [EvRun (RUN_SERVER_CREATED hostname (port args) p server);
             EvListen server]
         ++ between
         ++ [EvRun (RUN_SERVER_READY address actualPort p server)]
         ++ logs ++ [EvWaitUntilClosed server])%list
    /\ listen w server = inr (actualPort, address)
    /\ Forall (fun ev => is_listen ev = false /\ is_created_hook ev = false
                         /\ is_ready_hook ev = false)
              (before ++ between ++ logs).
Proof.
  unfold reaches_serving. rewrite TASK_NODE_trace.
  destruct (unsupported_network hre); [intros []|].
  rewrite launch_unfold. cbv zeta.
  destruct (outcome (TASK_NODE_GET_PROVIDER _ _ _ _)) as [e|p].
  { cbn [trace fst]. intros H. in_trace H. }
  destruct (newJsonRpcServerImpl w _) as [e|s].
  { cbn [trace fst]. intros H. in_trace H. }
  destruct (listen w s) as [e|[actualPort address]] eqn:Hlisten.
  { cbn [trace fst]. intros H. in_trace H. }
  destruct (outcome (TASK_NODE_SERVER_READY _ _ _ _ _ _)) as [e|[]].
  { cbn [trace fst]. intros H. in_trace H. }
  cbn [trace fst]. intros H.
  assert (s = server) as ->.
  { in_trace H. now injection H. }
  match goal with
  | |- context [((?b ++ [EvRun (RUN_SERVER_CREATED _ _ _ _); _]) ++ _)%list] =>
      exists b
  end.
  exists (watch_events w p (paths (config hre))),
         (trace (TASK_NODE_SERVER_READY w address actualPort p server hre)),
         (resolved_hostname w (hostnameParam args)), p, address, actualPort.
  split; [repeat (rewrite <- ?app_assoc; cbn [app]); reflexivity|].
  split; [exact Hlisten|].
  apply Forall_in. intros ev Hev. in_trace Hev;
    first [ apply resolution_event_quiet in Hev; tauto
          | apply ready_event_quiet in Hev; tauto
          | subst ev; repeat split ].
Qed.

Lemma C5_hook_ordering_witness :
  reaches_serving (TASK_NODE calm_world default_args (env_on "hardhat" None))
                  the_server
  /\ port default_args = 8545
  /\ exists before between logs hostname p,
       trace (TASK_NODE calm_world default_args (env_on "hardhat" None)) =
         (before
            ++ [EvRun (RUN_SERVER_CREATED hostname 8545 p the_server);
                EvListen the_server]
            ++ between
            ++ [EvRun (RUN_SERVER_READY "127.0.0.1" 49152 p the_server)]
            ++ logs ++ [EvWaitUntilClosed the_server])%list.
Proof.
  assert (H : reaches_serving
                (TASK_NODE calm_world default_args (env_on "hardhat" None))
                the_server).
  { unfold reaches_serving. vm_compute. do 11 right. left. reflexivity. }
  split; [exact H|]. split; [reflexivity|].
  destruct (C5_hook_ordering calm_world default_args (env_on "hardhat" None)
              the_server H)
    as [before [between [logs [hostname [p [address [actualPort [Ht [Hl _]]]]]]]]].
  injection Hl as <- <-.
  exists before, between, logs, hostname, p. exact Ht.
Defined.

(** ** The artifact watcher *)




(** * Further properties of the launch *)

Lemma filter_resolution (f : Event -> bool) (w : World) (fbn : option Z)
    (furl : option string) (hre : HardhatRuntimeEnvironment) :
  (forall ev, resolution_event ev = true -> f ev = false) ->
  filter f (trace (TASK_NODE_GET_PROVIDER w fbn furl hre)) = [].
Proof.
  intros H. apply filter_nil_of. intros ev Hev. apply H.
  exact (in_resolution w fbn furl hre ev Hev).
Qed.

Lemma filter_ready (f : Event -> bool) (w : World) (address : string)
    (n : Z) (p : EthereumProvider) (server : JsonRpcServer)
    (hre : HardhatRuntimeEnvironment) :
  (forall ev, ready_event ev = true -> f ev = false) ->
  filter f (trace (TASK_NODE_SERVER_READY w address n p server hre)) = [].
Proof.
  intros H. apply filter_nil_of. intros ev Hev. apply H.
  exact (in_ready w address n p server hre ev Hev).
Qed.



(** X1: a server is constructed only once provider resolution has returned,
    and with exactly the provider it returned, the port asked for and the
    resolved hostname. *)
Theorem X1_server_configuration (w : World) (args : NodeTaskArguments)
    (hre : HardhatRuntimeEnvironment) (serverConfig : JsonRpcServerConfig) :
  In (EvNewServer serverConfig) (trace (TASK_NODE w args hre)) ->
  unsupported_network hre = false
  /\ outcome (TASK_NODE_GET_PROVIDER w (forkBlockNumber args) (forkUrl args) hre)
     = inr (cfg_provider serverConfig)
  /\ cfg_port serverConfig = port args
  /\ cfg_hostname serverConfig = resolved_hostname w (hostnameParam args).
Proof.
  rewrite TASK_NODE_trace. destruct (unsupported_network hre); [intros []|].
  rewrite launch_unfold. cbv zeta.
  destruct (outcome (TASK_NODE_GET_PROVIDER _ _ _ _)) as [e|p].
  { cbn [trace fst]. intros H. in_trace H. }
  destruct (newJsonRpcServerImpl w _) as [e|server];
    [|destruct (listen w server) as [e|[actualPort address]];
      [|destruct (outcome (TASK_NODE_SERVER_READY _ _ _ _ _ _)) as [e|[]]]];
    cbn [trace fst]; intros H; in_trace H;
    injection H as <-; repeat split.
Qed.

Lemma X1_server_configuration_witness :
  In (EvNewServer {| cfg_hostname := "localhost"; cfg_port := 8545;
                     cfg_provider := fresh_provider |})
     (trace (TASK_NODE calm_world default_args (env_on "localhost" None)))
  /\ outcome (TASK_NODE_GET_PROVIDER calm_world None None (env_on "localhost" None))
     = inr fresh_provider.
Proof.
  assert (H : In (EvNewServer {| cfg_hostname := "localhost"; cfg_port := 8545;
                                 cfg_provider := fresh_provider |})
     (trace (TASK_NODE calm_world default_args (env_on "localhost" None)))).
  { vm_compute. do 6 right. left. reflexivity. }
  split; [exact H|].
  destruct (X1_server_configuration calm_world default_args
              (env_on "localhost" None) _ H) as [_ [Hp _]].
  exact Hp.
Defined.










Lemma probe_free_resolution (w : World) (fbn : option Z) (furl : option string)
    (hre : HardhatRuntimeEnvironment) :
  filter is_probe (trace (TASK_NODE_GET_PROVIDER w fbn furl hre)) = [].
Proof. apply filter_resolution. intros ev. destruct ev; cbn; congruence. Qed.

Lemma probe_free_watch_events (w : World) (p : EthereumProvider)
    (pp : ProjectPathsConfig) :
  filter is_probe (watch_events w p pp) = [].
Proof. unfold watch_events. destruct (watchCompilerOutput w p pp); reflexivity. Qed.

(** X4: the file system is looked at only to choose a default hostname.
    [existsSync] is called on [/.dockerenv] and nothing else, only when no
    hostname was given, only after provider resolution has returned, and
    once. *)
Theorem X4_docker_probe (w : World) (args : NodeTaskArguments)
    (hre : HardhatRuntimeEnvironment) (path : string) :
  In (EvExistsSync path) (trace (TASK_NODE w args hre)) ->
  path = "/.dockerenv"
  /\ hostnameParam args = None
  /\ (exists p, outcome (TASK_NODE_GET_PROVIDER w (forkBlockNumber args)
                           (forkUrl args) hre) = inr p)
  /\ filter is_probe (trace (TASK_NODE w args hre)) = [EvExistsSync "/.dockerenv"].
Proof.
  rewrite TASK_NODE_trace. destruct (unsupported_network hre); [intros []|].
  rewrite launch_unfold. cbv zeta.
  destruct (outcome (TASK_NODE_GET_PROVIDER _ _ _ _)) as [e|p].
  { cbn [trace fst]. intros H. in_trace H. }
  assert (Hhost : In (EvExistsSync path)
                     (filter is_probe (hostname_events (hostnameParam args))) ->
            path = "/.dockerenv" /\ hostnameParam args = None
            /\ filter is_probe (hostname_events (hostnameParam args))
               = [EvExistsSync "/.dockerenv"]).
  { destruct (hostnameParam args); cbn; [intros []|].
    intros [[= <-]|[]]. repeat split. }
  destruct (newJsonRpcServerImpl w _) as [e|server];
    [|destruct (listen w server) as [e|[actualPort address]];
      [|destruct (outcome (TASK_NODE_SERVER_READY _ _ _ _ _ _)) as [e|[]]]];
    cbn [trace fst]; intros H;
    (match type of H with
     | In _ ?t =>
         assert (Hf : filter is_probe t
                      = filter is_probe (hostname_events (hostnameParam args)));
         [ repeat (rewrite ?filter_app; cbn [app filter is_probe]);
           rewrite ?probe_free_resolution, ?probe_free_watch_events,
             ?filter_ready by (intros ev; destruct ev; cbn; congruence);
           cbn [app]; rewrite ?app_nil_r; reflexivity
         | assert (Hin : In (EvExistsSync path) (filter is_probe t))
             by (apply filter_In; split; [exact H | reflexivity]) ]
     end);
    rewrite Hf in Hin |- *;
    destruct (Hhost Hin) as [-> [Hnone Hfilter]];
    (split; [reflexivity|]); (split; [exact Hnone|]); (split; [now exists p|]);
    exact Hfilter.
Qed.

Lemma X4_docker_probe_witness :
  In (EvExistsSync "/.dockerenv")
     (trace (TASK_NODE calm_world default_args (env_on "hardhat" None)))
  /\ hostnameParam default_args = None.
Proof.
  assert (H : In (EvExistsSync "/.dockerenv")
     (trace (TASK_NODE calm_world default_args (env_on "hardhat" None)))).
  { vm_compute. do 2 right. left. reflexivity. }
  split; [exact H|].
  destruct (X4_docker_probe calm_world default_args (env_on "hardhat" None)
              "/.dockerenv" H) as [_ [Hnone _]].
  exact Hnone.
Defined.

(** X5: the watcher is started with the paths of the configuration, right
    after [listen], which resolved, and nowhere else in the launch.
    Conversely, whenever [listen] resolves the watcher is started. *)
Theorem X5_watcher_follows_listen (w : World) (args : NodeTaskArguments)
    (hre : HardhatRuntimeEnvironment) :
  let r := TASK_NODE w args hre in
  (forall p pp, In (EvWatch p pp) (trace r) ->
     pp = paths (config hre)
     /\ exists server before after,
          trace r = (before ++ EvListen server :: EvWatch p pp :: after)%list
          /\ (exists bound, listen w server = inr bound)
          /\ Forall (fun ev => is_watch ev = false) (before ++ after))
  /\ (forall server bound,
        In (EvListen server) (trace r) -> listen w server = inr bound ->
        exists p, In (EvWatch p (paths (config hre))) (trace r)).
Proof.
  cbv zeta. rewrite TASK_NODE_trace.
  destruct (unsupported_network hre); [split; intros; contradiction|].
  rewrite launch_unfold. cbv zeta.
  destruct (outcome (TASK_NODE_GET_PROVIDER _ _ _ _)) as [e|p].
  { cbn [trace fst]. split; [intros q pp H|intros s b H]; in_trace H. }
  destruct (newJsonRpcServerImpl w _) as [e|server].
  { cbn [trace fst]. split; [intros q pp H|intros s b H]; in_trace H. }
  destruct (listen w server) as [e|[actualPort address]] eqn:Hlisten.
  { cbn [trace fst]. split; [intros q pp H|intros s b H Hs]; in_trace H.
    injection H as <-. congruence. }
  destruct (outcome (TASK_NODE_SERVER_READY _ _ _ _ _ _)) as [e|[]];
    cbn [trace fst];
    (split; [|intros s b _ _; exists p; unfold watch_events; find_in]);
    intros q pp H;
    (assert (p = q /\ paths (config hre) = pp) as [<- <-]
       by (in_trace H; now injection H));
    (split; [reflexivity|]); exists server;
    match goal with
    | |- context [((?b ++ [?c; EvListen _]) ++ _)%list] => exists (b ++ [c])%list
    end;
    unfold watch_events;
    eexists;
    (split; [repeat (rewrite <- ?app_assoc; cbn [app]); reflexivity|]);
    (split; [now exists (actualPort, address)|]);
    apply Forall_in; intros ev Hev; in_trace Hev;
    first [ apply resolution_event_quiet in Hev; tauto
          | apply ready_event_quiet in Hev; tauto
          | subst ev; reflexivity
          | destruct (watchCompilerOutput w p (paths (config hre)));
            in_trace Hev; subst ev; reflexivity ].
Qed.

Lemma X5_watcher_follows_listen_witness :
  In (EvListen the_server)
     (trace (TASK_NODE calm_world default_args (env_on "hardhat" None)))
  /\ exists p, In (EvWatch p (paths plain_config))
                  (trace (TASK_NODE calm_world default_args (env_on "hardhat" None))).
Proof.
  assert (H : In (EvListen the_server)
     (trace (TASK_NODE calm_world default_args (env_on "hardhat" None)))).
  { vm_compute. do 6 right. left. reflexivity. }
  split; [exact H|].
  destruct (X5_watcher_follows_listen calm_world default_args
              (env_on "hardhat" None)) as [_ Hstart].
  exact (Hstart the_server (49152, "127.0.0.1") H eq_refl).
Defined.

(** ** The watcher does not interfere *)

Lemma get_provider_ext (w1 w2 : World) (fbn : option Z) (furl : option string)
    (hre : HardhatRuntimeEnvironment) :
  (forall n c pp a, createProvider w1 n c pp a = createProvider w2 n c pp a) ->
  (forall p r, request w1 p r = request w2 p r) ->
  TASK_NODE_GET_PROVIDER w1 fbn furl hre = TASK_NODE_GET_PROVIDER w2 fbn furl hre.
Proof.
  intros Hc Hr. unfold TASK_NODE_GET_PROVIDER.
  destruct (negb _);
    destruct (effectiveForkUrl furl _) as [u|];
    destruct (effectiveForkBlockNumber fbn _) as [b|];
    repeat (exec_step; rewrite ?Hc, ?Hr; try split_answer); reflexivity.
Qed.

Lemma account_block_ext (w1 w2 : World) (index : nat)
    (account : HardhatNetworkAccountConfig) :
  same_but_watcher w1 w2 ->
  account_block w1 index account = account_block w2 index account.
Proof.
  intros [_ [_ [_ [_ [_ [_ [Ht [Hp [Hb [Hbn _]]]]]]]]]].
  rewrite !account_block_run, Ht.
  destruct (toBuffer w2 (privateKey account)) as [e|keyBuffer]; [reflexivity|].
  rewrite Hp.
  destruct (privateToAddress w2 keyBuffer) as [e|addressBuffer]; [reflexivity|].
  rewrite !Hb. unfold displayed_balance, BN.of_string. now rewrite Hbn.
Qed.

Lemma logAccountsFrom_ext (w1 w2 : World)
    (entries : list HardhatNetworkAccountConfig) :
  same_but_watcher w1 w2 ->
  forall index, logAccountsFrom w1 index entries = logAccountsFrom w2 index entries.
Proof.
  intros H. induction entries as [|account rest IH]; intros index; [reflexivity|].
  cbn [logAccountsFrom]. rewrite (account_block_ext w1 w2 index account H).
  destruct (account_block w2 index account) as [t [e|text]]; cbn [bind emit];
    [reflexivity|]. now rewrite IH.
Qed.

Lemma server_ready_ext (w1 w2 : World) (address : string) (port : Z)
    (p : EthereumProvider) (server : JsonRpcServer)
    (hre : HardhatRuntimeEnvironment) :
  same_but_watcher w1 w2 ->
  TASK_NODE_SERVER_READY w1 address port p server hre
  = TASK_NODE_SERVER_READY w2 address port p server hre.
Proof.
  intros H. unfold TASK_NODE_SERVER_READY, logHardhatNetworkAccounts.
  assert (Hbanner : started_banner w1 address port = started_banner w2 address port).
  { destruct H as [_ [_ [_ [_ [_ [_ [_ [_ [_ [_ [Hx _]]]]]]]]]]].
    unfold started_banner, template_number. now rewrite Hx. }
  rewrite Hbanner. destruct (accounts _) as [entries|]; [|reflexivity].
  now rewrite (logAccountsFrom_ext w1 w2 entries H 0).
Qed.

Lemma rethrown_ext (w1 w2 : World) (e : Thrown) :
  same_but_watcher w1 w2 -> rethrown w1 e = rethrown w2 e.
Proof.
  intros [_ [_ [_ [_ [_ [_ [_ [_ [_ [_ [_ [Hc Hn]]]]]]]]]]]].
  rewrite !rethrown_cases. destruct e as [d a pe|m| |isNull];
    rewrite ?Hc, ?Hn; reflexivity.
Qed.

Lemma launch_ext (w1 w2 : World) (args : NodeTaskArguments)
    (hre : HardhatRuntimeEnvironment) :
  same_but_watcher w1 w2 ->
  outcome (launch w1 args hre) = outcome (launch w2 args hre)
  /\ without_watch_report (trace (launch w1 args hre))
     = without_watch_report (trace (launch w2 args hre)).
Proof.
  intros Hsame.
  pose proof Hsame as [He [Hc [Hr [Hn [Hl [Hw _]]]]]].
  rewrite !launch_unfold. cbv zeta.
  rewrite (get_provider_ext w1 w2 _ _ hre Hc Hr).
  destruct (outcome (TASK_NODE_GET_PROVIDER w2 _ _ _)) as [e|p];
    [split; reflexivity|].
  assert (Hhost : resolved_hostname w1 (hostnameParam args)
                  = resolved_hostname w2 (hostnameParam args)).
  { unfold resolved_hostname. now rewrite He. }
  rewrite Hhost, Hn.
  destruct (newJsonRpcServerImpl w2 _) as [e|server]; [split; reflexivity|].
  rewrite Hl.
  destruct (listen w2 server) as [e|[actualPort address]]; [split; reflexivity|].
  rewrite (server_ready_ext w1 w2 address actualPort p server hre Hsame).
  assert (Hwatch : without_watch_report (watch_events w1 p (paths (config hre)))
                   = without_watch_report (watch_events w2 p (paths (config hre)))).
  { unfold watch_events.
    destruct (watchCompilerOutput w1 p _), (watchCompilerOutput w2 p _);
      reflexivity. }
  destruct (outcome (TASK_NODE_SERVER_READY w2 _ _ _ _ _)) as [e|[]];
    cbn [outcome trace fst snd]; rewrite ?Hw; (split; [reflexivity|]);
    unfold without_watch_report in *; rewrite !filter_app, Hwatch; reflexivity.
Qed.

(** X6: whether the watcher throws or not changes nothing else.  In two
    worlds whose collaborators agree except for the watcher, the task ends
    the same way and makes the same calls in the same order, the warning,
    log and report of the watcher's [catch] apart. *)
Theorem X6_watcher_non_interference (w1 w2 : World) (args : NodeTaskArguments)
    (hre : HardhatRuntimeEnvironment) :
  same_but_watcher w1 w2 ->
  outcome (TASK_NODE w1 args hre) = outcome (TASK_NODE w2 args hre)
  /\ without_watch_report (trace (TASK_NODE w1 args hre))
     = without_watch_report (trace (TASK_NODE w2 args hre)).
Proof.
  intros H. rewrite !TASK_NODE_trace, !TASK_NODE_outcome.
  destruct (unsupported_network hre); [split; reflexivity|].
  destruct (launch_ext w1 w2 args hre H) as [Ho Ht].
  rewrite Ho. split; [|exact Ht].
  destruct (outcome (launch w2 args hre)) as [e|a]; [|reflexivity].
  now rewrite (rethrown_ext w1 w2 e H).
Qed.

Lemma X6_watcher_non_interference_witness :
  same_but_watcher calm_world watchless_world
  /\ outcome (TASK_NODE watchless_world default_args (env_on "hardhat" None))
     = inr tt.
Proof.
  assert (H : same_but_watcher calm_world watchless_world)
    by (repeat split).
  split; [exact H|].
  destruct (X6_watcher_non_interference calm_world watchless_world default_args
              (env_on "hardhat" None) H) as [Ho _].
  rewrite <- Ho. reflexivity.
Defined.

(** ** Balances written as numerals *)

(** X7: an account whose balance is written as the decimal numeral of
    [k * 10^18 + r], with [0 <= r < 10^18], is shown with balance [k]: whole
    units only. *)
Theorem X7_whole_units_of_numeral (w : World)
    (account : HardhatNetworkAccountConfig) (k r : Z) :
  0 <= k -> 0 <= r < 10 ^ 18 ->
  balance account = number_toString (k * 10 ^ 18 + r) ->
  displayed_balance w account = number_toString k.
Proof.
  intros Hk Hr Hb.
  unfold displayed_balance, BN.toString, BN.div, BN.pow, BN.of_number.
  rewrite Hb, BN_of_string_numeral.
  rewrite Z.quot_div_nonneg by nia.
  rewrite Z.div_add_l by lia. rewrite Z.div_small by lia.
  now rewrite Z.add_0_r.
Qed.

Lemma X7_whole_units_of_numeral_witness :
  balance rich_account = number_toString (10000 * 10 ^ 18 + 0)
  /\ displayed_balance calm_world rich_account = "10000".
Proof.
  assert (H : balance rich_account = number_toString (10000 * 10 ^ 18 + 0))
    by (vm_compute; reflexivity).
  split; [exact H|].
  rewrite (X7_whole_units_of_numeral calm_world rich_account 10000 0);
    [reflexivity|lia|lia|exact H].
Defined.

(** ** Requests and constructions *)

Lemma requests_of_app (t t' : list Event) :
  requests_of (t ++ t') = (requests_of t ++ requests_of t')%list.
Proof.
  induction t as [|ev t IH]; [reflexivity|].
  destruct ev; cbn; rewrite IH; reflexivity.
Qed.

Lemma requests_of_none (t : list Event) :
  (forall ev, In ev t -> is_request ev = false) -> requests_of t = [].
Proof.
  induction t as [|ev t IH]; intros H; [reflexivity|].
  pose proof (H ev (or_introl eq_refl)) as Hev.
  destruct ev; try discriminate Hev; cbn; apply IH;
    intros ev' Hev'; apply H; now right.
Qed.

Lemma requests_of_hostname_events (hp : option string) :
  requests_of (hostname_events hp) = [].
Proof. destruct hp; reflexivity. Qed.

Lemma requests_of_watch_events (w : World) (p : EthereumProvider)
    (pp : ProjectPathsConfig) :
  requests_of (watch_events w p pp) = [].
Proof. unfold watch_events. destruct (watchCompilerOutput w p pp); reflexivity. Qed.

Lemma requests_of_ready (w : World) (address : string) (n : Z)
    (p : EthereumProvider) (server : JsonRpcServer)
    (hre : HardhatRuntimeEnvironment) :
  requests_of (trace (TASK_NODE_SERVER_READY w address n p server hre)) = [].
Proof.
  apply requests_of_none. intros ev Hev. apply in_ready in Hev.
  destruct ev; try discriminate Hev; reflexivity.
Qed.

Lemma get_provider_requests_bound (w : World) (fbn : option Z)
    (furl : option string) (hre : HardhatRuntimeEnvironment) :
  (List.length (requests_of (trace (TASK_NODE_GET_PROVIDER w fbn furl hre))) <= 2)%nat.
Proof.
  unfold TASK_NODE_GET_PROVIDER.
  destruct (negb _);
    destruct (effectiveForkUrl furl _) as [u|];
    destruct (effectiveForkBlockNumber fbn _) as [b|]; exec; cbn; lia.
Qed.

(** X8: the task sends the provider no request of its own.  The requests of
    a launch are those of provider resolution, at most two, and all of them
    come before the server is constructed. *)
Theorem X8_requests_end_with_resolution (w : World) (args : NodeTaskArguments)
    (hre : HardhatRuntimeEnvironment) :
  let r := TASK_NODE w args hre in
  let resolution :=
    TASK_NODE_GET_PROVIDER w (forkBlockNumber args) (forkUrl args) hre in
  requests_of (trace r) =
    (if unsupported_network hre then [] else requests_of (trace resolution))
  /\ (List.length (requests_of (trace r)) <= 2)%nat
  /\ (forall serverConfig, In (EvNewServer serverConfig) (trace r) ->
      exists before after,
        trace r = (before ++ EvNewServer serverConfig :: after)%list
        /\ requests_of before = requests_of (trace resolution)
        /\ requests_of after = []).
Proof.
  cbv zeta.
  assert (Hall : requests_of (trace (TASK_NODE w args hre)) =
    (if unsupported_network hre then []
     else requests_of (trace (TASK_NODE_GET_PROVIDER w (forkBlockNumber args)
                                (forkUrl args) hre)))).
  { rewrite TASK_NODE_trace. destruct (unsupported_network hre); [reflexivity|].
    rewrite launch_unfold. cbv zeta.
    destruct (outcome (TASK_NODE_GET_PROVIDER _ _ _ _)) as [e|p];
      [reflexivity|].
    destruct (newJsonRpcServerImpl w _) as [e|server];
      [|destruct (listen w server) as [e|[actualPort address]];
      [|destruct (outcome (TASK_NODE_SERVER_READY _ _ _ _ _ _)) as [e|[]]]];
      cbn [trace fst];
      repeat (rewrite ?requests_of_app; cbn [app requests_of]);
      rewrite ?requests_of_hostname_events, ?requests_of_watch_events,
        ?requests_of_ready;
      cbn [app]; rewrite ?app_nil_r; reflexivity. }
  split; [exact Hall|]. split.
  { rewrite Hall. destruct (unsupported_network hre); [cbn; lia|].
    apply get_provider_requests_bound. }
  rewrite TASK_NODE_trace. destruct (unsupported_network hre); [intros c []|].
  rewrite launch_unfold. cbv zeta.
  destruct (outcome (TASK_NODE_GET_PROVIDER _ _ _ _)) as [e|p].
  { cbn [trace fst]. intros c H. in_trace H. }
  destruct (newJsonRpcServerImpl w _) as [e|server];
    [|destruct (listen w server) as [e|[actualPort address]];
      [|destruct (outcome (TASK_NODE_SERVER_READY _ _ _ _ _ _)) as [e|[]]]];
    cbn [trace fst]; intros c H;
    (assert (Hc : c = {| cfg_hostname := resolved_hostname w (hostnameParam args);
                         cfg_port := port args; cfg_provider := p |})
       by (in_trace H; now injection H));
    subst c;
    exists (EvRun (RUN_GET_PROVIDER (forkBlockNumber args) (forkUrl args))
            :: trace (TASK_NODE_GET_PROVIDER w (forkBlockNumber args)
                        (forkUrl args) hre)
            ++ hostname_events (hostnameParam args)
            ++ [EvRun (RUN_CREATE_SERVER
                         (resolved_hostname w (hostnameParam args))
                         (port args) p)])%list;
    eexists;
    (split; [repeat (rewrite <- ?app_assoc; cbn [app]); reflexivity|]);
    (split;
     [ cbn [requests_of]; rewrite !requests_of_app, requests_of_hostname_events;
       cbn [app requests_of]; rewrite ?app_nil_r; reflexivity
     | repeat (rewrite ?requests_of_app; cbn [app requests_of]);
       rewrite ?requests_of_watch_events, ?requests_of_ready;
       reflexivity ]).
Qed.

Lemma X8_requests_end_with_resolution_witness :
  In (EvNewServer {| cfg_hostname := "localhost"; cfg_port := 8545;
                     cfg_provider := network_provider |})
     (trace (TASK_NODE calm_world default_args (env_on "hardhat" None)))
  /\ exists before after,
       trace (TASK_NODE calm_world default_args (env_on "hardhat" None))
       = (before ++ EvNewServer {| cfg_hostname := "localhost"; cfg_port := 8545;
                                   cfg_provider := network_provider |} :: after)%list
       /\ requests_of after = [].
Proof.
  assert (H : In (EvNewServer {| cfg_hostname := "localhost"; cfg_port := 8545;
                                 cfg_provider := network_provider |})
     (trace (TASK_NODE calm_world default_args (env_on "hardhat" None)))).
  { vm_compute. do 4 right. left. reflexivity. }
  split; [exact H|].
  destruct (X8_requests_end_with_resolution calm_world default_args
              (env_on "hardhat" None)) as [_ [_ Hsplit]].
  destruct (Hsplit _ H) as [before [after [Ht [_ Ha]]]].
  exists before, after. split; [exact Ht | exact Ha].
Defined.


Lemma constructions_of_resolution (w : World) (fbn : option Z)
    (furl : option string) (hre : HardhatRuntimeEnvironment) :
  (List.length (filter creates_provider
                  (trace (TASK_NODE_GET_PROVIDER w fbn furl hre))) <= 1)%nat
  /\ (name (network hre) = HARDHAT_NETWORK_NAME ->
      filter creates_provider (trace (TASK_NODE_GET_PROVIDER w fbn furl hre)) = []).
Proof.
  unfold TASK_NODE_GET_PROVIDER. split.
  - destruct (negb _);
      destruct (effectiveForkUrl furl _) as [u|];
      destruct (effectiveForkBlockNumber fbn _) as [b|]; exec; cbn; lia.
  - intros Hname. rewrite (name_eqb_true hre Hname).
    destruct (effectiveForkUrl furl _) as [u|];
      destruct (effectiveForkBlockNumber fbn _) as [b|]; exec; reflexivity.
Qed.

(** X9: a launch constructs at most one provider and at most one server and
    calls [listen] at most once; on the local network it constructs no
    provider at all.  Neither hook makes the task construct anything again. *)
Theorem X9_one_provider_one_server (w : World) (args : NodeTaskArguments)
    (hre : HardhatRuntimeEnvironment) :
  let r := TASK_NODE w args hre in
  (List.length (filter creates_provider (trace r)) <= 1)%nat
  /\ (List.length (filter creates_server (trace r)) <= 1)%nat
  /\ (List.length (filter is_listen (trace r)) <= 1)%nat
  /\ (name (network hre) = HARDHAT_NETWORK_NAME ->
      filter creates_provider (trace r) = []).
Proof.
  cbv zeta. rewrite TASK_NODE_trace.
  destruct (unsupported_network hre); [cbn; repeat split; lia|].
  rewrite launch_unfold. cbv zeta.
  destruct (constructions_of_resolution w (forkBlockNumber args) (forkUrl args) hre)
    as [Hone Hlocal].
  assert (Hs : filter creates_server
                 (trace (TASK_NODE_GET_PROVIDER w (forkBlockNumber args)
                           (forkUrl args) hre)) = [])
    by (apply filter_resolution; intros ev; destruct ev; cbn; congruence).
  assert (Hl : filter is_listen
                 (trace (TASK_NODE_GET_PROVIDER w (forkBlockNumber args)
                           (forkUrl args) hre)) = [])
    by (apply filter_resolution; intros ev; destruct ev; cbn; congruence).
  unfold hostname_events, watch_events.
  destruct (outcome (TASK_NODE_GET_PROVIDER _ _ _ _)) as [e|p];
    [|destruct (newJsonRpcServerImpl w _) as [e|server];
      [|destruct (listen w server) as [e|[actualPort address]];
        [|destruct (outcome (TASK_NODE_SERVER_READY _ _ _ _ _ _)) as [e|[]]]]];
    destruct (hostnameParam args);
    try destruct (watchCompilerOutput w p _);
    cbn [trace fst];
    repeat (rewrite ?filter_app;
            cbn [app filter creates_provider creates_server is_listen]);
    rewrite ?Hs, ?Hl, ?filter_ready
      by (intros ev; destruct ev; cbn; congruence);
    cbn [app List.length]; rewrite ?app_nil_r;
    (split; [exact Hone|]); (split; [cbn; lia|]); (split; [cbn; lia|]);
    exact Hlocal.
Qed.

Lemma X9_one_provider_one_server_witness :
  name (network (env_on "hardhat" None)) = HARDHAT_NETWORK_NAME
  /\ filter creates_provider
       (trace (TASK_NODE calm_world default_args (env_on "hardhat" None))) = []
  /\ List.length (filter creates_server
       (trace (TASK_NODE calm_world default_args (env_on "hardhat" None)))) = 1%nat.
Proof.
  split; [reflexivity|].
  destruct (X9_one_provider_one_server calm_world default_args
              (env_on "hardhat" None)) as [_ [_ [_ Hlocal]]].
  split; [exact (Hlocal eq_refl) | reflexivity].
Defined.

(** ** One server, one order *)

(** X10: whatever the task does with a server (the two hooks, [listen],
    [waitUntilClosed]) it does with the server its one construction
    returned. *)
Theorem X10_single_server (w : World) (args : NodeTaskArguments)
    (hre : HardhatRuntimeEnvironment) (ev : Event) (server : JsonRpcServer) :
  In ev (trace (TASK_NODE w args hre)) ->
  server_of ev = Some server ->
  exists serverConfig,
    In (EvNewServer serverConfig) (trace (TASK_NODE w args hre))
    /\ newJsonRpcServerImpl w serverConfig = inr server.
Proof.
  rewrite TASK_NODE_trace. destruct (unsupported_network hre); [intros []|].
  rewrite launch_unfold. cbv zeta.
  destruct (outcome (TASK_NODE_GET_PROVIDER _ _ _ _)) as [e|p].
  { cbn [trace fst]. intros H Hs. in_trace H.
    - subst ev. discriminate.
    - destruct ev; try discriminate H; discriminate Hs. }
  destruct (newJsonRpcServerImpl w _) as [e|s] eqn:Hnew.
  { cbn [trace fst]. intros H Hs. in_trace H;
      try (subst ev; discriminate Hs).
    destruct ev; try discriminate H; discriminate Hs. }
  destruct (listen w s) as [e|[actualPort address]];
    [|destruct (outcome (TASK_NODE_SERVER_READY _ _ _ _ _ _)) as [e|[]]];
    cbn [trace fst]; intros H Hs;
    (exists {| cfg_hostname := resolved_hostname w (hostnameParam args);
               cfg_port := port args; cfg_provider := p |});
    (split;
     [ find_in | ]);
    in_trace H;
    first [ destruct ev; try discriminate H; discriminate Hs
          | subst ev; cbn in Hs; congruence ].
Qed.

Lemma X10_single_server_witness :
  In (EvWaitUntilClosed the_server)
     (trace (TASK_NODE calm_world default_args (env_on "hardhat" None)))
  /\ exists serverConfig,
       In (EvNewServer serverConfig)
          (trace (TASK_NODE calm_world default_args (env_on "hardhat" None)))
       /\ newJsonRpcServerImpl calm_world serverConfig = inr the_server.
Proof.
  assert (H : In (EvWaitUntilClosed the_server)
     (trace (TASK_NODE calm_world default_args (env_on "hardhat" None)))).
  { vm_compute. do 11 right. left. reflexivity. }
  split; [exact H|].
  exact (X10_single_server calm_world default_args (env_on "hardhat" None)
           _ the_server H eq_refl).
Defined.

Lemma steps_of_app (t t' : list Event) :
  steps_of (t ++ t') = (steps_of t ++ steps_of t')%list.
Proof.
  induction t as [|ev t IH]; [reflexivity|].
  cbn. destruct (step_of ev); rewrite IH; reflexivity.
Qed.

Lemma steps_of_none (t : list Event) :
  (forall ev, In ev t -> step_of ev = None) -> steps_of t = [].
Proof.
  induction t as [|ev t IH]; intros H; [reflexivity|].
  cbn. rewrite (H ev (or_introl eq_refl)). apply IH.
  intros ev' Hev'. apply H. now right.
Qed.

Lemma steps_of_resolution (w : World) (fbn : option Z) (furl : option string)
    (hre : HardhatRuntimeEnvironment) :
  steps_of (trace (TASK_NODE_GET_PROVIDER w fbn furl hre)) = [].
Proof.
  apply steps_of_none. intros ev Hev. apply in_resolution in Hev.
  destruct ev; try discriminate Hev; reflexivity.
Qed.

Lemma steps_of_ready (w : World) (address : string) (n : Z)
    (p : EthereumProvider) (server : JsonRpcServer)
    (hre : HardhatRuntimeEnvironment) :
  steps_of (trace (TASK_NODE_SERVER_READY w address n p server hre)) = [].
Proof.
  apply steps_of_none. intros ev Hev. apply in_ready in Hev.
  destruct ev; try discriminate Hev; reflexivity.
Qed.

(** X11: the steps of a launch are a beginning of: get the provider, create
    the server, server-created hook, listen, watch, server-ready hook, wait
    until closed.  No step is skipped, repeated or taken out of order; a
    launch the network check refuses takes none, and the launches that take
    all seven are those that reach [waitUntilClosed]. *)
Theorem X11_steps_in_order (w : World) (args : NodeTaskArguments)
    (hre : HardhatRuntimeEnvironment) :
  let r := TASK_NODE w args hre in
  exists k,
    steps_of (trace r) = firstn k pipeline
    /\ (k <= 7)%nat
    /\ (unsupported_network hre = true -> k = 0%nat)
    /\ (k = 7%nat <-> exists server, reaches_serving r server).
Proof.
  cbv zeta. unfold reaches_serving. rewrite TASK_NODE_trace.
  destruct (unsupported_network hre).
  { exists 0%nat. repeat split; try lia; try discriminate. now intros [s []]. }
  rewrite launch_unfold. cbv zeta. unfold hostname_events, watch_events.
  destruct (outcome (TASK_NODE_GET_PROVIDER _ _ _ _)) as [e|p].
  { exists 1%nat. cbn [trace fst steps_of step_of].
    rewrite steps_of_resolution. repeat split; try lia; try discriminate.
    intros [sv H]. in_trace H. }
  destruct (newJsonRpcServerImpl w _) as [e|server].
  { exists 2%nat. cbn [trace fst].
    destruct (hostnameParam args);
      repeat (rewrite ?steps_of_app; cbn [app steps_of step_of]);
      rewrite steps_of_resolution;
      (repeat split; try lia; try discriminate; intros [sv H]; in_trace H). }
  destruct (listen w server) as [e|[actualPort address]].
  { exists 4%nat. cbn [trace fst].
    destruct (hostnameParam args);
      repeat (rewrite ?steps_of_app; cbn [app steps_of step_of]);
      rewrite steps_of_resolution;
      (repeat split; try lia; try discriminate; intros [sv H]; in_trace H). }
  destruct (outcome (TASK_NODE_SERVER_READY _ _ _ _ _ _)) as [e|[]].
  { exists 6%nat. cbn [trace fst].
    destruct (hostnameParam args);
      destruct (watchCompilerOutput w p _);
      repeat (rewrite ?steps_of_app; cbn [app steps_of step_of]);
      rewrite steps_of_resolution, steps_of_ready;
      (repeat split; try lia; try discriminate; intros [sv H]; in_trace H). }
  exists 7%nat. cbn [trace fst].
  destruct (hostnameParam args);
    destruct (watchCompilerOutput w p _);
    repeat (rewrite ?steps_of_app; cbn [app steps_of step_of]);
    rewrite steps_of_resolution, steps_of_ready;
    (split; [reflexivity|]); (split; [lia|]); (split; [discriminate|]);
    (split; [intros _; exists server; find_in | reflexivity]).
Qed.

Lemma X11_steps_in_order_witness :
  unsupported_network (env_on "localhost" (Some "localhost")) = true
  /\ steps_of (trace (TASK_NODE calm_world default_args
                        (env_on "localhost" (Some "localhost")))) = []
  /\ steps_of (trace (TASK_NODE calm_world default_args (env_on "hardhat" None)))
     = pipeline.
Proof.
  split; [reflexivity|]. split.
  - destruct (X11_steps_in_order calm_world default_args
                (env_on "localhost" (Some "localhost"))) as [k [Hk [_ [H0 _]]]].
    rewrite Hk, (H0 eq_refl). reflexivity.
  - reflexivity.
Defined.
